(** * Traffic-sign detection service: embedding of the serving path

    The development follows the Python sources module by module:
    [config.py], [mltrack.py] (the bounded asynchronous logger),
    [infer.py] (lazy model singleton and inference orchestration) and
    [service.py] (the two prediction handlers).

    Conventions.
    - Python [float]s are idealised as exact rationals ([Q]); equalities
      between computed floats are stated with [==].
    - Python [int]s and numpy [int64] values are integers ([Z]); a
      statement that reads the value of a cast to [int64] carries the
      hypothesis [int64] that the value fits.
    - A rational is always finite: requests and detections with a NaN or
      an infinite float are outside the embedding.
    - Dicts are finite maps: what is stored under each key is modelled,
      the insertion order of the keys is not.
    - Every call into a library the repository does not own (ultralytics,
      PIL, cv2, mlflow, the file system, the clocks) is an oracle acting on
      an abstract environment [Env]; the theorems hold for every choice of
      these oracles.
    - Module globals ([_model], [_q]) and the audit file live in an explicit
      [World] that every function threads; exceptions are the [Raise]
      branch of [Res]. *)

From Stdlib Require Import QArith Qround Qabs Lqa DecimalString DecimalPos DecimalZ.
From stdpp Require Import gmap strings list fin_maps.

Open Scope Z_scope.

(** ** Python values *)

(** The exception classes the sources raise or catch; all of them derive
    from [Exception]. *)
Inductive exn : Type :=
| Exception (msg : string)
| IndexError
| Full
| HTTPException (status_code : Z) (detail : string).

Inductive Res (A : Type) : Type :=
| Ok (a : A)
| Raise (e : exn).
Arguments Ok {A} a.
Arguments Raise {A} e.

Definition is_Ok {A} (r : Res A) : bool :=
  match r with Ok _ => true | Raise _ => false end.

Abbreviation bytes := (list Byte.byte).

Module Py.

(** [str(i)] for an integer: signed decimal digits. *)
Definition str (i : Z) : string := NilZero.string_of_int (Z.to_int i).

(** Truth value of an optional string: [None] and [""] are falsy. *)
Definition truthy (s : option string) : bool :=
  match s with
  | None => false
  | Some s => negb (String.eqb s "")
  end.

(** [s.startswith((p1, p2, ...))]. *)
Definition startswith (s : string) (prefixes : list string) : bool :=
  existsb (fun p => String.prefix p s) prefixes.

(** [l[i]] with Python's negative indices and [IndexError]. *)
Definition getitem {A} (l : list A) (i : Z) : Res A :=
  let n := Z.of_nat (length l) in
  let j := if i <? 0 then i + n else i in
  if (0 <=? j) && (j <? n)
  then match l !! Z.to_nat j with Some a => Ok a | None => Raise IndexError end
  else Raise IndexError.

(** [ndarray.astype(int)]: truncation towards zero.  The array's elements
    are 64-bit; this is the cast for the floats whose integer part fits. *)
Definition astype_int (x : Q) : Z := Z.quot (Qnum x) (Z.pos (Qden x)).

(** Rounding to the nearest integer, ties to even. *)
Definition round_half_even (x : Q) : Z :=
  let f := Qfloor x in
  let r := (x - inject_Z f)%Q in
  match (r ?= 1 # 2)%Q with
  | Lt => f
  | Gt => f + 1
  | Eq => if Z.even f then f else f + 1
  end.

(** [round(x, ndigits)]. *)
Definition round (x : Q) (ndigits : nat) : Q :=
  let s := inject_Z (10 ^ Z.of_nat ndigits) in
  (inject_Z (round_half_even (x * s)) / s)%Q.

(** [float(n)] for an integer. *)
Definition float (n : Z) : Q := inject_Z n.

(** [zip(a, b, c)]: stops at the shortest argument. *)
Fixpoint zip3 {A B C} (a : list A) (b : list B) (c : list C) : list (A * B * C) :=
  match a, b, c with
  | x :: a', y :: b', z :: c' => (x, y, z) :: zip3 a' b' c'
  | _, _, _ => []
  end.

End Py.

(** ** config.py *)

Module Config.

Definition WEIGHTS_PATH : string := "models/best.pt".

Definition INPUT_SIZE : Z := 320.

Definition CLASS_NAMES : list string :=
  [ "Speed Limit 50"; "Speed Limit 100"; "No Overtaking"; "Yield"; "Stop";
    "No Entry"; "Danger Ahead"; "Road Work Ahead"; "Pedestrian Crossing";
    "Children Crossing" ]%string.

End Config.

(** ** Data carried between the modules *)

(** The dict built by [predict_ndarray] for each detection. *)
Record Box : Type := mkBox {
  cls : string;
  conf : Q;
  x1 : Z; y1 : Z; x2 : Z; y2 : Z
}.

(** What the detector returns: [results[0].boxes] with its three tensors. *)
Record Boxes : Type := mkBoxes {
  xyxy : option (list (Q * Q * Q * Q));
  boxes_cls : list Q;
  boxes_conf : list Q
}.

Record Results : Type := mkResults { boxes : option Boxes }.

(** The dict placed on the logger's queue. *)
Record LogEvent : Type := mkLogEvent {
  run_name : string;
  metrics : gmap string Q;
  params : gmap string string
}.

(** One line of the audit file. *)
Record CsvRow : Type := mkCsvRow {
  row_time : string;
  row_file : string;
  row_cls : string;
  row_conf : Q;
  row_x1 : Z; row_y1 : Z; row_x2 : Z; row_y2 : Z;
  row_latency : Q
}.

Record UploadFile : Type := mkUploadFile {
  filename : string;
  content_type : option string;
  content : bytes
}.

(** Identity of a constructed [YOLO] object. *)
Definition Handle : Type := nat.

(** ** External collaborators *)

Class Externals : Type := {
  Env : Type;
  Ndarray : Type;
  (* clocks and the process environment *)
  time_time : Env -> Q;
  perf_counter : Env -> Q;
  strftime : Env -> string;
  environ : gmap string string;
  str_float : Q -> string;
  (* time spent by the interpreter in the box-mapping loop *)
  interp : Env -> Env;
  (* ultralytics, PIL, cv2 *)
  YOLO : string -> Env -> Res unit * Env;
  image_open : bytes -> Env -> Res Ndarray * Env;
  cv2_resize : Ndarray -> Z -> Env -> Res Ndarray * Env;
  model_predict : Handle -> Ndarray -> Q -> Env -> Res (list Results) * Env;
  (* os.makedirs + open(path, "a") *)
  open_append : string -> Env -> Res unit * Env;
  (* the outside world once csv.writer has written a row: the clock read
     by the next [time.strftime] has moved on *)
  csv_writerow : CsvRow -> Env -> Env;
  (* mlflow *)
  mlflow_set_tracking_uri : string -> Env -> Res unit * Env;
  mlflow_set_experiment : string -> Env -> Res unit * Env;
  mlflow_start_run : string -> Env -> Res unit * Env;
  mlflow_end_run : string -> Env -> Res unit * Env;
  mlflow_log_metric : string -> Q -> Env -> Res unit * Env;
  mlflow_log_param : string -> string -> Env -> Res unit * Env
}.

(** ** The process state *)

Record World `{Externals} : Type := mkWorld {
  env : Env;
  yolo_objects : nat;            (* YOLO instances constructed so far *)
  _model : option Handle;        (* infer._model *)
  _q : list (option LogEvent);   (* mltrack._q *)
  unfinished_tasks : Z;          (* mltrack._q.unfinished_tasks *)
  pred_log : list CsvRow         (* the file at PRED_LOG *)
}.

Definition set_env `{Externals} (e : Env) (w : World) : World :=
  mkWorld _ e (yolo_objects w) (_model w) (_q w) (unfinished_tasks w) (pred_log w).

Definition set_model `{Externals} (m : option Handle) (w : World) : World :=
  mkWorld _ (env w) (yolo_objects w) m (_q w) (unfinished_tasks w) (pred_log w).

Definition set_yolo_objects `{Externals} (n : nat) (w : World) : World :=
  mkWorld _ (env w) n (_model w) (_q w) (unfinished_tasks w) (pred_log w).

Definition set_q `{Externals} (q : list (option LogEvent)) (u : Z) (w : World) : World :=
  mkWorld _ (env w) (yolo_objects w) (_model w) q u (pred_log w).

Definition set_pred_log `{Externals} (l : list CsvRow) (w : World) : World :=
  mkWorld _ (env w) (yolo_objects w) (_model w) (_q w) (unfinished_tasks w) l.

(** ** State-and-exception monad

    [ST S A] is a computation over a state [S] that returns an [A] or
    raises.  The handlers run in [M = ST World]; calls that only touch the
    outside world run in [ST Env] and are embedded with [extern]. *)

Definition ST (S A : Type) : Type := S -> Res A * S.

Definition ret {S A} (a : A) : ST S A := fun s => (Ok a, s).

Definition raise {S A} (e : exn) : ST S A := fun s => (Raise e, s).

Definition bind {S A B} (m : ST S A) (k : A -> ST S B) : ST S B :=
  fun s => match m s with
           | (Ok a, s') => k a s'
           | (Raise e, s') => (Raise e, s')
           end.

(** [try: m  except Exception as e: h e]. *)
Definition try_except {S A} (m : ST S A) (h : exn -> ST S A) : ST S A :=
  fun s => match m s with
           | (Ok a, s') => (Ok a, s')
           | (Raise e, s') => h e s'
           end.

(** [for x in l: f x]. *)
Fixpoint for_each {S A} (f : A -> ST S unit) (l : list A) : ST S unit :=
  match l with
  | [] => ret tt
  | x :: l' => bind (f x) (fun _ => for_each f l')
  end.

Notation "'let*' x ':=' m 'in' k" := (bind m (fun x => k))
  (at level 10, x pattern, m at level 100, k at level 200).

Abbreviation M := (ST World).

(** A call into an external library. *)
Definition extern `{Externals} {A} (f : ST Env A) : M A :=
  fun w => let '(r, e) := f (env w) in (r, set_env e w).

(** Reading a clock. *)
Definition observe `{Externals} {A} (f : Env -> A) : M A :=
  fun w => (Ok (f (env w)), w).

Definition lift {S A} (r : Res A) : ST S A := fun s => (r, s).

(** ** mltrack.py *)

Module Mltrack.
Section Mltrack.
Context `{Externals}.

Definition _MLFLOW_URI : option string := environ !! "MLFLOW_TRACKING_URI".

Definition _EXP : string := default "default" (environ !! "MLFLOW_EXPERIMENT_NAME").

(** [_q = queue.Queue(maxsize=10000)]. *)
Definition maxsize : Z := 10000.

Definition qsize (w : World) : Z := Z.of_nat (length (_q w)).

(** [Queue.put_nowait]: raises [Full] instead of waiting for a free slot. *)
Definition put_nowait (item : option LogEvent) : M unit :=
  fun w =>
    if (0 <? maxsize) && (maxsize <=? qsize w)
    then (Raise Full, w)
    else (Ok tt, set_q (_q w ++ [item]) (unfinished_tasks w + 1) w).

(** [Queue.task_done]. *)
Definition task_done : M unit :=
  fun w =>
    let unfinished := unfinished_tasks w - 1 in
    if unfinished <? 0
    then (Raise (Exception "task_done() called too many times"), w)
    else (Ok tt, set_q (_q w) unfinished w).

Definition log_async (run_name : string) (metrics : gmap string Q)
    (params : option (gmap string string)) : M unit :=
  if negb (Py.truthy _MLFLOW_URI) then ret tt
  else
    try_except
      (put_nowait (Some (mkLogEvent run_name metrics (default ∅ params))))
      (fun e => match e with Full => ret tt | _ => raise e end).

(** [with mlflow.start_run(run_name=..., nested=True): body].  On exit the
    run is ended, as failed when the body raised, and the body's exception
    is raised again. *)
Definition with_start_run {A} (name : string) (body : ST Env A) : ST Env A :=
  let* _ := mlflow_start_run name in
  fun e =>
    match body e with
    | (Ok a, e1) => (let* _ := mlflow_end_run "FINISHED" in ret a) e1
    | (Raise x, e1) => (let* _ := mlflow_end_run "FAILED" in raise x) e1
    end.

(** The body of the worker's [try]: one run per queued item.  The metrics
    are logged before the params; within each group the calls follow the
    keys of the finite map, where Python follows the order in which the
    dict was filled. *)
Definition forward (item : LogEvent) : ST Env unit :=
  with_start_run (run_name item)
    (let* _ := for_each (fun kv => mlflow_log_metric kv.1 kv.2)
                 (map_to_list (metrics item)) in
     for_each (fun kv => mlflow_log_param kv.1 kv.2)
       (map_to_list (params item))).

(** Where the worker thread is when it is observed. *)
Inductive WorkerStatus : Type :=
| Running                 (* inside the loop, out of fuel *)
| Waiting                 (* blocked in [_q.get()] on an empty queue *)
| Stopped                 (* returned *)
| Crashed (e : exn).      (* left through an uncaught exception *)

(** [while True: ...], at most [fuel] iterations. *)
Fixpoint worker_loop (fuel : nat) (w : World) : WorkerStatus * World :=
  match fuel with
  | O => (Running, w)
  | S fuel' =>
      match _q w with
      | [] => (Waiting, w)
      | item :: rest =>
          let w1 := set_q rest (unfinished_tasks w) w in
          match item with
          | None => (Stopped, w1)
          | Some item =>
              let '(_, w2) :=
                try_except (extern (forward item)) (fun _ => ret tt) w1 in
              match task_done w2 with
              | (Ok _, w3) => worker_loop fuel' w3
              | (Raise e, w3) => (Crashed e, w3)
              end
          end
      end
  end.

Definition _worker (fuel : nat) (w : World) : WorkerStatus * World :=
  if negb (Py.truthy _MLFLOW_URI) then (Stopped, w)
  else
    match (let* _ := extern (mlflow_set_tracking_uri (default "" _MLFLOW_URI)) in
           extern (mlflow_set_experiment _EXP)) w with
    | (Ok _, w1) => worker_loop fuel w1
    | (Raise e, w1) => (Crashed e, w1)
    end.

End Mltrack.
End Mltrack.

(** ** infer.py *)

Module Infer.
Section Infer.
Context `{Externals}.

(** The three accesses [get_model] makes to the global. *)
Definition read_model : M (option Handle) := fun w => (Ok (_model w), w).

Definition store_model (h : Handle) : M unit :=
  fun w => (Ok tt, set_model (Some h) w).

(** [YOLO(str(WEIGHTS_PATH))]: a fresh object when the constructor returns. *)
Definition new_YOLO : M Handle :=
  let* _ := extern (YOLO Config.WEIGHTS_PATH) in
  fun w => (Ok (yolo_objects w), set_yolo_objects (S (yolo_objects w)) w).

(** The value returned is whatever the global holds at the [return]. *)
Definition get_model : M (option Handle) :=
  let* m := read_model in
  let* _ := match m with
            | None => let* h := new_YOLO in store_model h
            | Some _ => ret tt
            end in
  read_model.

Definition _read_image_bytes (file_bytes : bytes) : M Ndarray :=
  extern (image_open file_bytes).

Definition _resize_if_needed (img : Ndarray) (size : Z) : M Ndarray :=
  extern (cv2_resize img size).

(** [CLASS_NAMES[c_id] if 0 <= c_id < len(CLASS_NAMES) else str(c_id)]. *)
Definition class_name (c_id : Z) : Res string :=
  if (0 <=? c_id) && (c_id <? Z.of_nat (length Config.CLASS_NAMES))
  then Py.getitem Config.CLASS_NAMES c_id
  else Ok (Py.str c_id).

(** The body of the [for ... in zip(xyxy, cls_ids, confs)] loop. *)
Definition to_box (row : (Z * Z * Z * Z) * Z * Q) : Res Box :=
  let '((a, b, c, d), c_id, p) := row in
  match class_name c_id with
  | Ok name => Ok (mkBox name (Py.round p 4) a b c d)
  | Raise e => Raise e
  end.

Fixpoint map_rows (rows : list ((Z * Z * Z * Z) * Z * Q)) : Res (list Box) :=
  match rows with
  | [] => Ok []
  | row :: rows' =>
      match to_box row with
      | Ok b => match map_rows rows' with
                | Ok bs => Ok (b :: bs)
                | Raise e => Raise e
                end
      | Raise e => Raise e
      end
  end.

Definition astype_int4 (r : Q * Q * Q * Q) : Z * Z * Z * Z :=
  let '(a, b, c, d) := r in
  (Py.astype_int a, Py.astype_int b, Py.astype_int c, Py.astype_int d).

(** The rows the loop iterates over. *)
Definition detector_rows (results : list Results) : list ((Z * Z * Z * Z) * Z * Q) :=
  match results with
  | [] => []
  | r :: _ =>
      match boxes r with
      | Some bx =>
          match xyxy bx with
          | Some xy =>
              Py.zip3 (astype_int4 <$> xy) (Py.astype_int <$> boxes_cls bx)
                (boxes_conf bx)
          | None => []
          end
      | None => []
      end
  end.

Definition map_results (results : list Results) : M (list Box) :=
  fun w =>
    (map_rows (detector_rows results), set_env (interp (env w)) w).

Definition predict_ndarray (img : Ndarray) (conf : Q) : M (list Box * Q) :=
  let* model := get_model in
  let* pre_t := observe time_time in
  let* resized := _resize_if_needed img Config.INPUT_SIZE in
  let* t0 := observe time_time in
  let* results :=
    match model with
    | Some h => extern (model_predict h resized conf)
    | None => raise (Exception "'NoneType' object has no attribute 'predict'")
    end in
  let* t1 := observe time_time in
  let inf_ms := ((t1 - t0) * 1000)%Q in
  let* boxes := map_results results in
  let* t2 := observe time_time in
  let total_ms := ((t2 - pre_t) * 1000)%Q in
  ret (boxes, total_ms).

Definition predict_file (file_bytes : bytes) (conf : Q) : M (list Box * Q) :=
  let* img := _read_image_bytes file_bytes in
  predict_ndarray img conf.

End Infer.
End Infer.

(** ** Concurrent callers of [get_model]

    Each caller is a thread running [get_model]; a thread switch can fall
    between any two of its accesses to the global.  [pc] is where a thread
    stands, [thread_step] runs it up to its next switch point. *)

Module Threads.
Section Threads.
Context `{Externals}.

Inductive pc : Type :=
| AtCheck                        (* about to test [_model is None] *)
| AtLoad                         (* saw [None]; about to call [YOLO(...)] *)
| AtStore (h : Handle)           (* constructor returned; about to assign *)
| AtReturn                       (* about to read [_model] for the return *)
| Returned (v : option Handle)   (* returned [v] to its caller *)
| Failed (e : exn).              (* raised [e] to its caller *)

Definition thread_step (p : pc) (w : World) : pc * World :=
  match p with
  | AtCheck =>
      match Infer.read_model w with
      | (Ok None, w') => (AtLoad, w')
      | (Ok (Some _), w') => (AtReturn, w')
      | (Raise e, w') => (Failed e, w')
      end
  | AtLoad =>
      match Infer.new_YOLO w with
      | (Ok h, w') => (AtStore h, w')
      | (Raise e, w') => (Failed e, w')
      end
  | AtStore h =>
      match Infer.store_model h w with
      | (Ok _, w') => (AtReturn, w')
      | (Raise e, w') => (Failed e, w')
      end
  | AtReturn =>
      match Infer.read_model w with
      | (Ok v, w') => (Returned v, w')
      | (Raise e, w') => (Failed e, w')
      end
  | Returned _ | Failed _ => (p, w)
  end.

(** The scheduler picks thread [i] for its next step. *)
Definition sched_step (st : list pc * World) (i : nat) : list pc * World :=
  match st.1 !! i with
  | Some p => let '(p', w') := thread_step p st.2 in (<[i := p']> st.1, w')
  | None => st
  end.

Definition run (schedule : list nat) (st : list pc * World) : list pc * World :=
  foldl sched_step st schedule.

(** [n] callers, all about to enter [get_model]. *)
Definition callers (n : nat) : list pc := replicate n AtCheck.

(** One caller after the other, each run to completion. *)
Definition sequential (n : nat) : list nat :=
  mjoin ((fun i => replicate 4 i) <$> seq 0 n).

End Threads.
End Threads.

(** ** service.py *)

Module Service.
Section Service.
Context `{Externals}.

Record PredictResponse : Type := mkPredictResponse {
  file : string;
  conf_threshold : Q;
  resp_boxes : list Box;
  latency_ms : Q
}.

Record BatchResult : Type := mkBatchResult {
  result_filename : string;
  result_boxes : list Box;
  result_latency_ms : Q
}.

Record BatchResponse : Type := mkBatchResponse {
  batch_size : Z;
  results : list BatchResult;
  batch_latency_ms : Q;
  avg_latency_ms : Q
}.

Definition getenv (key dflt : string) : string := default dflt (environ !! key).

(** [await file.read()]. *)
Definition read (f : UploadFile) : M bytes := ret (content f).

Definition csv_row (now : string) (f : UploadFile) (latency_ms : Q) (b : Box) : CsvRow :=
  mkCsvRow now (filename f) (cls b) (conf b) (x1 b) (y1 b) (x2 b) (y2 b)
    (Py.round latency_ms 3).

(** [w.writerow([time.strftime(...), ...])] on the file opened for
    appending: the clock is read for this row, the row is written, and time
    has passed before the next row reads the clock again. *)
Definition writerow (f : UploadFile) (latency_ms : Q) (b : Box) : M unit :=
  fun w =>
    let row := csv_row (strftime (env w)) f latency_ms b in
    (Ok tt, set_env (csv_writerow row (env w)) (set_pred_log (pred_log w ++ [row]) w)).

(** [for b in boxes: w.writerow([...])]. *)
Definition for_each_row (f : UploadFile) (latency_ms : Q) (boxes : list Box) : M unit :=
  for_each (writerow f latency_ms) boxes.

(** The [# CSV logging] block of [predict]. *)
Definition csv_logging (f : UploadFile) (boxes : list Box) (latency_ms : Q) : M unit :=
  let LOG_PATH := getenv "PRED_LOG" "artifacts/predict_log.csv" in
  let* _ := extern (open_append LOG_PATH) in
  for_each_row f latency_ms boxes.

(** [counts[b["cls"]] = counts.get(b["cls"], 0) + 1]. *)
Definition count_box (counts : gmap string Z) (b : Box) : gmap string Z :=
  <[cls b := default 0 (counts !! cls b) + 1]> counts.

(** [{f"class_{k}_count": float(v) for k, v in counts.items()}]. *)
Definition class_metrics (counts : gmap string Z) : gmap string Q :=
  list_to_map
    ((fun kv => ("class_" +:+ kv.1 +:+ "_count", Py.float kv.2)) <$> map_to_list counts).

(** The [params] dict, the same in both handlers. *)
Definition log_params (conf : Q) : gmap string string :=
  <["api_workers" := getenv "API_WORKERS" "1"]>
    (<["imgsz" := "640"]> (<["conf" := str_float conf]> ∅)).

Definition bad_content_type (f : UploadFile) : bool :=
  match content_type f with
  | None => true
  | Some ct => negb (Py.startswith ct ["image/"; "application/octet-stream"])
  end.

(** The [metrics] dict of [predict]; the unpacked per-class entries come
    last and would win over an equal key. *)
Definition inference_metrics (boxes : list Box) (latency_ms : Q) : gmap string Q :=
  class_metrics (foldl count_box ∅ boxes) ∪
    <["n_boxes" := Py.float (Z.of_nat (length boxes))]>
      (<["latency_ms" := latency_ms]> ∅).

(** [POST /predict].  The handler's [traceback.print_exc()] only writes to
    stderr and is left out.  [JSONResponse] refuses only floats that are
    not finite, so building the response from rationals is [ret]. *)
Definition predict (f : UploadFile) (conf : Q) : M PredictResponse :=
  if bad_content_type f
  then raise (HTTPException 400 "Please upload an image file.")
  else
    try_except
      (let* img_bytes := read f in
       let* (boxes, latency_ms) := Infer.predict_file img_bytes conf in
       let* _ := csv_logging f boxes latency_ms in
       let* _ :=
         Mltrack.log_async "inference" (inference_metrics boxes latency_ms)
           (Some (log_params conf)) in
       ret (mkPredictResponse (filename f) conf boxes (Py.round latency_ms 3)))
      (fun _ => raise (HTTPException 500 "Prediction failed")).

(** The accumulators of the batch loop: [results], [total_counts],
    [total_boxes]. *)
Definition BatchAcc : Type := list BatchResult * gmap string Z * Z.

Definition accumulate (acc : gmap string Z * Z) (b : Box) : gmap string Z * Z :=
  (count_box acc.1 b, acc.2 + 1).

(** [for f in files: ...]. *)
Fixpoint batch_loop (files : list UploadFile) (conf : Q) (acc : BatchAcc) : M BatchAcc :=
  match files with
  | [] => ret acc
  | f :: files' =>
      let* bts := read f in
      let* (boxes, latency_ms) := Infer.predict_file bts conf in
      let results := acc.1.1 ++ [mkBatchResult (filename f) boxes latency_ms] in
      let totals := foldl accumulate (acc.1.2, acc.2) boxes in
      batch_loop files' conf (results, totals.1, totals.2)
  end.

(** The [metrics] dict of [predict_batch]. *)
Definition batch_metrics (elapsed avg_latency : Q) (n total_boxes : Z)
    (total_counts : gmap string Z) : gmap string Q :=
  class_metrics total_counts ∪
    <["n_boxes_total" := Py.float total_boxes]>
      (<["batch_size" := Py.float n]>
         (<["avg_latency_ms" := Py.round avg_latency 2]>
            (<["batch_latency_ms" := Py.round elapsed 2]> ∅))).

(** [POST /predict_batch]. *)
Definition predict_batch (files : list UploadFile) (conf : Q) : M BatchResponse :=
  let* t0 := observe perf_counter in
  let* (results, total_counts, total_boxes) := batch_loop files conf ([], ∅, 0) in
  let* t1 := observe perf_counter in
  let elapsed := ((t1 - t0) * 1000)%Q in
  let n := Z.of_nat (length files) in
  let avg_latency := (elapsed / Py.float (Z.max 1 n))%Q in
  let* _ :=
    Mltrack.log_async "batch_inference"
      (batch_metrics elapsed avg_latency n total_boxes total_counts)
      (Some (log_params conf)) in
  ret (mkBatchResponse n results (Py.round elapsed 2) (Py.round avg_latency 2)).

End Service.
End Service.

(** ** A concrete deployment, used to run the definitions

    The environment is a clock, the number of times the weights will still
    fail to load, and the log of calls received by the tracking server. *)

Module Demo.

Record DemoEnv : Type := mkDemoEnv {
  now : Q;
  load_failures : nat;
  backend : list string
}.

Record Scenario : Type := mkScenario {
  sc_environ : gmap string string;
  sc_backend_up : bool;
  sc_decode : Q;
  sc_resize : Q;
  sc_detect : Q;
  sc_map : Q;
  sc_write : Q;
  sc_detections : list Results
}.

Definition advance (d : Q) (e : DemoEnv) : DemoEnv :=
  mkDemoEnv (now e + d) (load_failures e) (backend e).

(** The wall clock as text.  The deployment starts at midnight and the runs
    below last less than a minute: only the seconds field moves. *)
Definition clock_text (t : Q) : string :=
  let s := Qfloor t mod 60 in
  "2025-01-01 00:00:" +:+ (if s <? 10 then "0" +:+ Py.str s else Py.str s).

Definition call_backend (up : bool) (what : string) : ST DemoEnv unit :=
  fun e =>
    let e' := mkDemoEnv (now e) (load_failures e) (backend e ++ [what]) in
    if up then (Ok tt, e') else (Raise (Exception "connection refused"), e').

Definition externals (sc : Scenario) : Externals := {|
  Env := DemoEnv;
  Ndarray := bytes;
  time_time := fun e => (now e + 1000)%Q;
  perf_counter := now;
  strftime := fun e => clock_text (now e);
  environ := sc_environ sc;
  str_float := fun _ => "0.25"%string;
  interp := advance (sc_map sc);
  YOLO := fun _ e =>
    match load_failures e with
    | O => (Ok tt, e)
    | S k => (Raise (Exception "weights not found"), mkDemoEnv (now e) k (backend e))
    end;
  image_open := fun bs e =>
    match bs with
    | [] => (Raise (Exception "cannot identify image file"), e)
    | _ => (Ok bs, advance (sc_decode sc) e)
    end;
  cv2_resize := fun img _ e => (Ok img, advance (sc_resize sc) e);
  model_predict := fun _ _ _ e => (Ok (sc_detections sc), advance (sc_detect sc) e);
  open_append := fun _ e => (Ok tt, e);
  csv_writerow := fun _ e => advance (sc_write sc) e;
  mlflow_set_tracking_uri := fun _ => call_backend (sc_backend_up sc) "set_tracking_uri";
  mlflow_set_experiment := fun _ => call_backend (sc_backend_up sc) "set_experiment";
  mlflow_start_run := fun name => call_backend (sc_backend_up sc) ("start_run " +:+ name);
  mlflow_end_run := fun status => call_backend (sc_backend_up sc) ("end_run " +:+ status);
  mlflow_log_metric := fun k _ => call_backend (sc_backend_up sc) ("log_metric " +:+ k);
  mlflow_log_param := fun k _ => call_backend (sc_backend_up sc) ("log_param " +:+ k)
|}.

(** One detection of class 6 and one of an index outside the table. *)
Definition two_detections : list Results :=
  [ mkResults (Some (mkBoxes
      (Some [ (10, 10, 100, 100)%Q; (5 # 2, 7, 20, 30)%Q ])
      [ 6%Q; 17%Q ]
      [ (99 # 100)%Q; (1 # 3)%Q ])) ].

Definition tracking_on : gmap string string :=
  {[ "MLFLOW_TRACKING_URI" := "http://mlflow:5000" ]}.

(** Tracking configured, server unreachable. *)
Definition sc_down : Scenario :=
  mkScenario tracking_on false (1 # 300) (2 # 1000) (50 # 1000) (1 # 1000) 0 two_detections.

(** Tracking configured, server up; each image takes 10/3 ms to decode and
    nothing else takes time. *)
Definition sc_up : Scenario :=
  mkScenario tracking_on true (1 # 300) 0 0 0 0 two_detections.

(** Tracking not configured. *)
Definition sc_off : Scenario :=
  mkScenario ∅ true (1 # 300) (2 # 1000) (50 # 1000) (1 # 1000) 0 two_detections.

(** Tracking not configured, and a disk that takes a second to take a row. *)
Definition sc_slow_disk : Scenario :=
  mkScenario ∅ true (1 # 300) (2 # 1000) (50 # 1000) (1 # 1000) 1 two_detections.

Definition env_of (sc : Scenario) (t : Q) (failures : nat) (calls : list string)
  : @Env (externals sc) := mkDemoEnv t failures calls.

Definition world0 (sc : Scenario) (failures : nat) : @World (externals sc) :=
  @mkWorld (externals sc) (env_of sc 0 failures []) 0 None [] 0 [].

Definition event (name : string) : LogEvent :=
  mkLogEvent name {[ "latency_ms" := 5%Q ]} ∅.

Definition png : UploadFile :=
  mkUploadFile "00006.png" (Some "image/png"%string) [Byte.x89; Byte.x50].

End Demo.

(** * Further operations of the sources *)

(** ** mltrack.start

    [start] only touches the module flag [_started] and spawns the worker
    thread; [threads] counts the threads it has started. *)

Module Starter.

Record State : Type := mkState {
  _started : bool;
  threads : nat
}.

Definition start (s : State) : State :=
  if _started s then s else mkState true (S (threads s)).

(** The module as imported: [_started = False], no thread. *)
Definition initial : State := mkState false 0.

End Starter.

(** ** service.warmup *)

Module Endpoints.
Section Endpoints.
Context `{Externals}.

Record Warmup : Type := mkWarmup {
  ok : bool;
  msg : string
}.

(** [str(e)] for the exceptions of the model. *)
Definition exn_str (e : exn) : string :=
  match e with
  | Exception m => m
  | IndexError => "list index out of range"
  | Full => ""
  | HTTPException code detail => Py.str code +:+ ": " +:+ detail
  end.

(** [POST /warmup]. *)
Definition warmup : M Warmup :=
  try_except
    (let* _ := Infer.get_model in ret (mkWarmup true "Model loaded"))
    (fun e => ret (mkWarmup false ("Warmup failed: " +:+ exn_str e))).

End Endpoints.
End Endpoints.

(** * Vocabulary of the statements *)

Section Vocabulary.
Context `{Externals}.

(** What one loop iteration leaves in the environment: the effects of
    [forward], whether it returned or raised. *)
Definition deliver (e : Env) (item : LogEvent) : Env := (Mltrack.forward item e).2.

(** What the box built from one detector row must look like. *)
Definition box_of_row (row : (Z * Z * Z * Z) * Z * Q) (b : Box) : Prop :=
  let c_id := row.1.2 in
  (x1 b, y1 b, x2 b, y2 b) = row.1.1
  /\ conf b = Py.round row.2 4
  /\ (c_id < 0 \/ Z.of_nat (length Config.CLASS_NAMES) <= c_id ->
      cls b = Py.str c_id)
  /\ (0 <= c_id < Z.of_nat (length Config.CLASS_NAMES) ->
      Config.CLASS_NAMES !! Z.to_nat c_id = Some (cls b)).

(** The values of an array made by [astype(int)]: 64-bit signed integers.
    [Py.astype_int] is the cast for the floats whose integer part is one
    of them. *)
Definition int64 (z : Z) : Prop := - 2 ^ 63 <= z < 2 ^ 63.

(** The class name of a box whose class index is [c_id]. *)
Definition names_class (c_id : Z) (name : string) : Prop :=
  (c_id < 0 \/ Z.of_nat (length Config.CLASS_NAMES) <= c_id -> name = Py.str c_id)
  /\ (0 <= c_id < Z.of_nat (length Config.CLASS_NAMES) ->
      Config.CLASS_NAMES !! Z.to_nat c_id = Some name).

(** What the boxes returned for a detector answer must be, in terms of the
    three tensors of [results[0].boxes]: position [i] of the list holds
    the box of row [i] of the tensors. *)
Definition box_of_tensor_row (coords : Q * Q * Q * Q) (c p : Q) (b : Box) : Prop :=
  conf b = Py.round p 4
  /\ (int64 (Py.astype_int c) -> names_class (Py.astype_int c) (cls b))
  /\ (int64 (Py.astype_int coords.1.1.1) /\ int64 (Py.astype_int coords.1.1.2)
      /\ int64 (Py.astype_int coords.1.2) /\ int64 (Py.astype_int coords.2) ->
      (x1 b, y1 b, x2 b, y2 b) = Infer.astype_int4 coords).

Definition boxes_of_tensors (results : list Results) (bs : list Box) : Prop :=
  match results with
  | [] => bs = []
  | r :: _ =>
      match boxes r with
      | None => bs = []
      | Some bx =>
          match xyxy bx with
          | None => bs = []
          | Some xy =>
              length bs
                = (length xy `min` (length (boxes_cls bx) `min` length (boxes_conf bx)))%nat
              /\ forall (i : nat) (coords : Q * Q * Q * Q) (c p : Q),
                   xy !! i = Some coords ->
                   boxes_cls bx !! i = Some c ->
                   boxes_conf bx !! i = Some p ->
                   exists b, bs !! i = Some b /\ box_of_tensor_row coords c p b
          end
      end
  end.

(** The lines the CSV loop writes for the boxes when it starts in the
    outside world [e]: the clock is read anew for every line. *)
Fixpoint audit_rows (e : Env) (f : UploadFile) (latency_ms : Q) (bs : list Box)
  : list CsvRow :=
  match bs with
  | [] => []
  | b :: bs' =>
      let row := Service.csv_row (strftime e) f latency_ms b in
      row :: audit_rows (csv_writerow row e) f latency_ms bs'
  end.

(** The outside world after the last of these lines. *)
Fixpoint env_after_rows (e : Env) (f : UploadFile) (latency_ms : Q) (bs : list Box)
  : Env :=
  match bs with
  | [] => e
  | b :: bs' =>
      env_after_rows (csv_writerow (Service.csv_row (strftime e) f latency_ms b) e)
        f latency_ms bs'
  end.

(** The part of the state only the handlers and the logger write. *)
Definition sinks_untouched (w w' : World) : Prop :=
  pred_log w' = pred_log w /\ _q w' = _q w
  /\ unfinished_tasks w' = unfinished_tasks w.

(** What the batch loop adds to [results] for one uploaded file. *)
Definition entry_for (conf : Q) (f : UploadFile) (r : Service.BatchResult) : Prop :=
  Service.result_filename r = filename f
  /\ exists w_before w_after,
       Infer.predict_file (content f) conf w_before
         = (Ok (Service.result_boxes r, Service.result_latency_ms r), w_after).

(** The property as the specification words it. *)
Definition average_is_batch_over_n : Prop :=
  forall (files : list UploadFile) (conf : Q) (w w' : World)
         (resp : Service.BatchResponse),
    Service.predict_batch files conf w = (Ok resp, w') ->
    Service.result_filename <$> Service.results resp = filename <$> files
    /\ (Service.avg_latency_ms resp ==
          Service.batch_latency_ms resp / inject_Z (Z.of_nat (length files)))%Q.

(** [f"class_{k}_count"]. *)
Definition class_key (c : string) : string := "class_" +:+ c +:+ "_count".

(** An upload with another content type in place of its own. *)
Definition retyped (g : UploadFile -> option string) (f : UploadFile) : UploadFile :=
  mkUploadFile (filename f) (g f) (content f).

(** Several events logged one after the other. *)
Definition log_all (evs : list LogEvent) : M unit :=
  for_each (fun ev => Mltrack.log_async (run_name ev) (metrics ev) (Some (params ev))) evs.

(** Free slots of the queue. *)
Definition room (w : World) : nat := Z.to_nat (Mltrack.maxsize - Mltrack.qsize w).

(** Reading a decimal numeral back. *)
Definition int_parse (s : string) : option Z := Z.of_int <$> NilZero.int_of_string s.

(** Number of boxes of class [c]. *)
Definition count_cls (c : string) (bs : list Box) : Z :=
  Z.of_nat (length (filter (fun b => cls b = c) bs)).

(** All boxes of a batch response, in order. *)
Definition all_boxes (rs : list Service.BatchResult) : list Box :=
  mjoin (Service.result_boxes <$> rs).

(** [time.time()] never goes back across the three timed steps. *)
Definition clock_monotone : Prop :=
  (forall img size e, (time_time e <= time_time (cv2_resize img size e).2)%Q)
  /\ (forall h img c e, (time_time e <= time_time (model_predict h img c e).2)%Q)
  /\ (forall e, (time_time e <= time_time (interp e))%Q).

(** The state apart from the logger's queue. *)
Definition same_model (w w' : World) : Prop :=
  _model w' = _model w /\ yolo_objects w' = yolo_objects w.

End Vocabulary.

Section RaceVocabulary.
Context `{Externals}.
Import Threads.

Local Open Scope nat_scope.

(** [k] steps of one thread, nobody else running. *)
Fixpoint steps (k : nat) (p : pc) (w : World) : pc * World :=
  match k with
  | O => (p, w)
  | S k' => let '(p', w') := thread_step p w in steps k' p' w'
  end.

Definition outcome (r : Res (option Handle)) : pc :=
  match r with Ok v => Returned v | Raise e => Failed e end.

(** Handles built since the race began. *)
Definition built (base : nat) (w : World) (h : Handle) : Prop :=
  base <= h < yolo_objects w.

Definition pc_ok (base : nat) (w : World) (p : pc) : Prop :=
  match p with
  | AtStore h => built base w h
  | AtReturn => exists h, _model w = Some h
  | Returned v => exists h, v = Some h /\ built base w h
  | AtCheck | AtLoad | Failed _ => True
  end.

(** 1 for a thread that is past its decision to load. *)
Definition decided (p : pc) : nat :=
  match p with AtCheck | AtLoad => 0 | _ => 1 end.

Definition race_inv (base : nat) (st : list pc * World) : Prop :=
  base <= yolo_objects st.2
  /\ (forall h, _model st.2 = Some h -> built base st.2 h)
  /\ Forall (pc_ok base st.2) st.1
  /\ yolo_objects st.2 <= base + sum_list_with decided st.1.

(** A thread is finished when it has returned or raised. *)
Definition finished (p : pc) : bool :=
  match p with Returned _ | Failed _ => true | _ => false end.

(** The property as the specification words it: whatever the interleaving,
    once all callers are through there was one load and they all hold the
    same instance. *)
Definition single_load_under_any_schedule : Prop :=
  forall (n : nat) (schedule : list nat) (w : World),
    0 < n ->
    _model w = None ->
    let st := run schedule (callers n, w) in
    forallb finished st.1 = true ->
    yolo_objects st.2 = S (yolo_objects w)
    /\ exists h, st.1 = replicate n (Returned (Some h)).

End RaceVocabulary.

(** * Theorems *)

(** ** Bounded asynchronous logger *)

Section MltrackFacts.
Context `{Externals}.

Lemma put_nowait_full (item : option LogEvent) (w : World) :
  10000 <= Mltrack.qsize w -> Mltrack.put_nowait item w = (Raise Full, w).
Proof.
  intros Hfull. unfold Mltrack.put_nowait, Mltrack.maxsize.
  destruct (10000 <=? Mltrack.qsize w) eqn:E; [reflexivity | lia].
Qed.

Lemma put_nowait_room (item : option LogEvent) (w : World) :
  Mltrack.qsize w < 10000 ->
  Mltrack.put_nowait item w =
    (Ok tt, set_q (_q w ++ [item]) (unfinished_tasks w + 1) w).
Proof.
  intros Hroom. unfold Mltrack.put_nowait, Mltrack.maxsize.
  destruct (10000 <=? Mltrack.qsize w) eqn:E; [lia | reflexivity].
Qed.

(** With a backend and room in the queue the event is appended. *)
Lemma log_async_enqueues (name : string) (ms : gmap string Q)
    (ps : option (gmap string string)) (w : World) :
  Py.truthy Mltrack._MLFLOW_URI = true ->
  Mltrack.qsize w < 10000 ->
  Mltrack.log_async name ms ps w =
    (Ok tt, set_q (_q w ++ [Some (mkLogEvent name ms (default ∅ ps))])
              (unfinished_tasks w + 1) w).
Proof.
  intros Hon Hroom. unfold Mltrack.log_async. rewrite Hon. simpl.
  unfold try_except. now rewrite put_nowait_room.
Qed.

(** The logger never raises and only ever touches the queue. *)
Lemma log_async_total (name : string) (ms : gmap string Q)
    (ps : option (gmap string string)) (w : World) :
  exists q u, Mltrack.log_async name ms ps w = (Ok tt, set_q q u w).
Proof.
  unfold Mltrack.log_async.
  destruct (Py.truthy Mltrack._MLFLOW_URI); simpl.
  - unfold try_except, Mltrack.put_nowait.
    destruct ((0 <? Mltrack.maxsize) && (Mltrack.maxsize <=? Mltrack.qsize w)).
    + exists (_q w), (unfinished_tasks w). now destruct w.
    + eauto.
  - exists (_q w), (unfinished_tasks w). now destruct w.
Qed.

(** C1. [log_async] is a no-op when no tracking URI is configured, and
    when one is configured but the queue already holds its 10000 items the
    event is dropped: in both cases the call returns normally and leaves
    the whole state, the queue included, as it was. *)
Theorem log_async_noop_or_drop (name : string) (ms : gmap string Q)
    (ps : option (gmap string string)) (w : World) :
  Py.truthy Mltrack._MLFLOW_URI = false \/ 10000 <= Mltrack.qsize w ->
  Mltrack.log_async name ms ps w = (Ok tt, w).
Proof.
  intros [Hoff | Hfull]; unfold Mltrack.log_async.
  - now rewrite Hoff.
  - destruct (Py.truthy Mltrack._MLFLOW_URI); [simpl | reflexivity].
    unfold try_except. now rewrite put_nowait_full.
Qed.

Lemma worker_iteration (fuel : nat) (item : LogEvent)
    (rest : list (option LogEvent)) (w : World) :
  _q w = Some item :: rest ->
  1 <= unfinished_tasks w ->
  Mltrack.worker_loop (S fuel) w =
    Mltrack.worker_loop fuel
      (set_q rest (unfinished_tasks w - 1) (set_env (deliver (env w) item) w)).
Proof.
  intros Hq Hu. simpl. rewrite Hq.
  unfold try_except, extern, deliver. simpl.
  destruct (Mltrack.forward item (env w)) as [[[] | x] e']; simpl;
    unfold Mltrack.task_done; simpl;
    (destruct (unfinished_tasks w - 1 <? 0) eqn:E; [lia | reflexivity]).
Qed.

(** C2. Whatever happens while an item is forwarded (the oracles are free
    to raise at any call) the worker goes on: with the items [evs] at the
    head of the queue it handles them one per iteration in queue order,
    and continues with the rest of the queue; when nothing is left it is
    back waiting in [get]. *)
Theorem worker_swallows_and_keeps_order (evs : list LogEvent)
    (rest : list (option LogEvent)) (fuel : nat) (w : World) :
  _q w = (Some <$> evs) ++ rest ->
  Mltrack.qsize w <= unfinished_tasks w ->
  let w' := set_q rest (unfinished_tasks w - Z.of_nat (length evs))
              (set_env (foldl deliver (env w) evs) w) in
  Mltrack.worker_loop (length evs + fuel) w = Mltrack.worker_loop fuel w'
  /\ (rest = [] -> Mltrack.worker_loop (length evs + S fuel) w = (Mltrack.Waiting, w')).
Proof.
  revert w. induction evs as [| ev evs IH]; intros w Hq Hinv w'.
  - assert (Hw : w' = w).
    { subst w'. simpl in *. destruct w; simpl in *. subst. unfold set_q, set_env.
      simpl. f_equal. lia. }
    rewrite Hw. split; [reflexivity |].
    intros ->. simpl in *. now rewrite Hq.
  - assert (Hu : 1 <= unfinished_tasks w).
    { unfold Mltrack.qsize in Hinv. rewrite Hq in Hinv. simpl in Hinv. lia. }
    pose (w1 := set_q ((Some <$> evs) ++ rest) (unfinished_tasks w - 1)
                  (set_env (deliver (env w) ev) w)).
    assert (Hw : w' = set_q rest (unfinished_tasks w1 - Z.of_nat (length evs))
                        (set_env (foldl deliver (env w1) evs) w1)).
    { subst w' w1. unfold set_q, set_env. simpl. f_equal. lia. }
    destruct (IH w1) as [IH1 IH2].
    + reflexivity.
    + unfold Mltrack.qsize in *. rewrite Hq in Hinv. subst w1.
      rewrite fmap_cons in Hinv. cbn [app length] in Hinv.
      cbn [_q set_q unfinished_tasks set_env]. lia.
    + rewrite Hw. split.
      * change (length (ev :: evs) + fuel)%nat with (S (length evs + fuel)).
        now rewrite (worker_iteration _ ev _ w Hq Hu).
      * intros Hrest.
        change (length (ev :: evs) + S fuel)%nat with (S (length evs + S fuel)).
        rewrite (worker_iteration _ ev _ w Hq Hu).
        now apply IH2.
Qed.

End MltrackFacts.

Lemma log_async_noop_or_drop_witness :
  Mltrack.log_async (H := Demo.externals Demo.sc_off) "inference" ∅ None
      (Demo.world0 Demo.sc_off 0)
    = (Ok tt, Demo.world0 Demo.sc_off 0)
  /\ (let full := set_q (replicate (Z.to_nat 10000) (Some (Demo.event "inference"))) 10000
                    (Demo.world0 Demo.sc_down 0) in
      Mltrack.log_async (H := Demo.externals Demo.sc_down) "inference" ∅ None full
        = (Ok tt, full)).
Proof.
  split.
  - apply (@log_async_noop_or_drop (Demo.externals Demo.sc_off)).
    left. reflexivity.
  - apply (@log_async_noop_or_drop (Demo.externals Demo.sc_down)).
    right. vm_compute. discriminate.
Defined.

(** With the tracking server down every call to it raises; the worker
    still takes both queued items, in order, and ends up waiting. *)
Lemma worker_swallows_and_keeps_order_witness :
  let w := set_q [Some (Demo.event "first"); Some (Demo.event "second")] 2
             (Demo.world0 Demo.sc_down 0) in
  Mltrack.worker_loop (H := Demo.externals Demo.sc_down) 3 w
    = (Mltrack.Waiting,
       set_q [] 0
         (set_env (Demo.env_of Demo.sc_down 0 0 ["start_run first"; "start_run second"]%string) w)).
Proof.
  intros w.
  refine (proj2 (@worker_swallows_and_keeps_order (Demo.externals Demo.sc_down)
                   [Demo.event "first"; Demo.event "second"] [] 0%nat w eq_refl _) eq_refl).
  vm_compute. discriminate.
Defined.

(** ** Model handle and inference orchestration *)

Section InferFacts.
Context `{Externals}.

Lemma get_model_cached (w : World) (h : Handle) :
  _model w = Some h -> Infer.get_model w = (Ok (Some h), w).
Proof.
  intros Hm. unfold Infer.get_model, bind, Infer.read_model, ret.
  rewrite Hm. now rewrite Hm.
Qed.

Lemma get_model_loads (w : World) (e1 : Env) :
  _model w = None ->
  YOLO Config.WEIGHTS_PATH (env w) = (Ok tt, e1) ->
  Infer.get_model w =
    (Ok (Some (yolo_objects w)),
     set_model (Some (yolo_objects w))
       (set_yolo_objects (S (yolo_objects w)) (set_env e1 w))).
Proof.
  intros Hm Hload.
  unfold Infer.get_model, bind, Infer.read_model, Infer.new_YOLO, bind, extern.
  rewrite Hm, Hload. reflexivity.
Qed.

Lemma get_model_raises (w : World) (x : exn) (e1 : Env) :
  _model w = None ->
  YOLO Config.WEIGHTS_PATH (env w) = (Raise x, e1) ->
  Infer.get_model w = (Raise x, set_env e1 w).
Proof.
  intros Hm Hload.
  unfold Infer.get_model, bind, Infer.read_model, Infer.new_YOLO, bind, extern.
  rewrite Hm, Hload. reflexivity.
Qed.

(** A call that returns never returns [None]. *)
Lemma get_model_returns_handle (w w' : World) (v : option Handle) :
  Infer.get_model w = (Ok v, w') -> exists h, v = Some h /\ _model w' = Some h.
Proof.
  destruct (_model w) as [h |] eqn:Hm.
  - rewrite (get_model_cached w h Hm). intros [= <- <-]. eauto.
  - destruct (YOLO Config.WEIGHTS_PATH (env w)) as [[[] | x] e1] eqn:Hload.
    + rewrite (get_model_loads w e1 Hm Hload). intros [= <- <-]. eauto.
    + rewrite (get_model_raises w x e1 Hm Hload). discriminate.
Qed.

(** C4. When the constructor raises during the first load, [get_model]
    raises the same exception, returns no handle and leaves [_model] unset
    (only the outside world has moved); the next call runs the constructor
    again and its outcome is that of this new attempt. *)
Theorem get_model_failure_is_retryable (w : World) (x : exn) (e1 : Env) :
  _model w = None ->
  YOLO Config.WEIGHTS_PATH (env w) = (Raise x, e1) ->
  let w1 := set_env e1 w in
  Infer.get_model w = (Raise x, w1)
  /\ _model w1 = None
  /\ (forall e2, YOLO Config.WEIGHTS_PATH e1 = (Ok tt, e2) ->
        exists h w2, Infer.get_model w1 = (Ok (Some h), w2)
                     /\ _model w2 = Some h /\ env w2 = e2)
  /\ (forall x' e2, YOLO Config.WEIGHTS_PATH e1 = (Raise x', e2) ->
        Infer.get_model w1 = (Raise x', set_env e2 w1)).
Proof.
  intros Hm Hload w1.
  assert (Hm1 : _model w1 = None) by exact Hm.
  split; [now apply get_model_raises |].
  split; [exact Hm1 |].
  split.
  - intros e2 Hok. eexists _, _. split.
    + apply (get_model_loads w1 e2 Hm1 Hok).
    + split; reflexivity.
  - intros x' e2 Hbad. apply (get_model_raises w1 x' e2 Hm1 Hbad).
Qed.

(** C5. The latency a successful [predict_file] reports is, in
    milliseconds, the time taken by the resize, by the detector call and by
    the box mapping.  The first clock reading is taken after the bytes are
    decoded and after [get_model] has returned, so neither decoding nor a
    model load is part of the figure. *)
Theorem predict_file_latency (file_bytes : bytes) (conf : Q) (w w' : World)
    (bs : list Box) (latency : Q) :
  Infer.predict_file file_bytes conf w = (Ok (bs, latency), w') ->
  exists (img resized : Ndarray) (h : Handle) (results : list Results)
         (e_decoded e_resized e_detected : Env) (w_ready : World),
    image_open file_bytes (env w) = (Ok img, e_decoded)
    /\ Infer.get_model (set_env e_decoded w) = (Ok (Some h), w_ready)
    /\ cv2_resize img Config.INPUT_SIZE (env w_ready) = (Ok resized, e_resized)
    /\ model_predict h resized conf e_resized = (Ok results, e_detected)
    /\ env w' = interp e_detected
    /\ (latency ==
          1000 * ((time_time e_resized - time_time (env w_ready))
                  + (time_time e_detected - time_time e_resized)
                  + (time_time (interp e_detected) - time_time e_detected)))%Q.
Proof.
  intros Hrun.
  unfold Infer.predict_file, Infer._read_image_bytes in Hrun.
  unfold bind at 1 in Hrun. unfold extern at 1 in Hrun.
  destruct (image_open file_bytes (env w)) as [[img | x] e_decoded] eqn:Hdec;
    [| discriminate].
  unfold Infer.predict_ndarray in Hrun. unfold bind at 1 in Hrun.
  destruct (Infer.get_model (set_env e_decoded w)) as [[v | x] w_ready] eqn:Hgm;
    [| discriminate].
  destruct (get_model_returns_handle _ _ _ Hgm) as (h & -> & _).
  unfold bind, observe, Infer._resize_if_needed, extern, Infer.map_results, ret in Hrun.
  destruct (cv2_resize img Config.INPUT_SIZE (env w_ready))
    as [[resized | x] e_resized] eqn:Hres; [| discriminate].
  cbn [env set_env] in Hrun.
  destruct (model_predict h resized conf e_resized)
    as [[results | x] e_detected] eqn:Hdet; [| discriminate].
  cbn [env set_env] in Hrun.
  destruct (Infer.map_rows (Infer.detector_rows results)) as [bs' | x]; [| discriminate].
  injection Hrun as <- <- <-.
  exists img, resized, h, results, e_decoded, e_resized, e_detected, w_ready.
  repeat split; try assumption. ring.
Qed.

Lemma getitem_in_range {A} (l : list A) (i : Z) :
  0 <= i < Z.of_nat (length l) ->
  exists a, Py.getitem l i = Ok a /\ l !! Z.to_nat i = Some a.
Proof.
  intros Hi. unfold Py.getitem.
  destruct (i <? 0) eqn:Hneg; [lia |].
  destruct ((0 <=? i) && (i <? Z.of_nat (length l))) eqn:Hin.
  - destruct (l !! Z.to_nat i) as [a |] eqn:Hl; [eauto |].
    apply lookup_ge_None in Hl. lia.
  - apply andb_false_iff in Hin. destruct Hin; lia.
Qed.

Lemma class_name_in_table (c_id : Z) :
  0 <= c_id < Z.of_nat (length Config.CLASS_NAMES) ->
  exists name, Infer.class_name c_id = Ok name
               /\ Config.CLASS_NAMES !! Z.to_nat c_id = Some name.
Proof.
  intros Hi. unfold Infer.class_name.
  destruct ((0 <=? c_id) && (c_id <? Z.of_nat (length Config.CLASS_NAMES))) eqn:Hin.
  - now apply getitem_in_range.
  - apply andb_false_iff in Hin. destruct Hin; lia.
Qed.

Lemma class_name_outside_table (c_id : Z) :
  c_id < 0 \/ Z.of_nat (length Config.CLASS_NAMES) <= c_id ->
  Infer.class_name c_id = Ok (Py.str c_id).
Proof.
  intros Hout. unfold Infer.class_name.
  destruct ((0 <=? c_id) && (c_id <? Z.of_nat (length Config.CLASS_NAMES))) eqn:Hin.
  - apply andb_true_iff in Hin. lia.
  - reflexivity.
Qed.

(** Mapping rows of integers never fails and keeps their order. *)
Lemma map_rows_boxes (rows : list ((Z * Z * Z * Z) * Z * Q)) :
  exists bs, Infer.map_rows rows = Ok bs /\ Forall2 box_of_row rows bs.
Proof.
  induction rows as [| [[[[[a b] c] d] c_id] p] rows (bs & IH & Hall)].
  - exists []. split; [reflexivity | constructor].
  - destruct (Z_lt_le_dec c_id 0) as [Hneg | Hnn];
      [| destruct (Z_lt_le_dec c_id (Z.of_nat (length Config.CLASS_NAMES)))
           as [Hlt | Hge]].
    + exists (mkBox (Py.str c_id) (Py.round p 4) a b c d :: bs).
      cbn [Infer.map_rows Infer.to_box].
      rewrite class_name_outside_table, IH by lia.
      split; [reflexivity |]. constructor; [| assumption].
      unfold box_of_row; cbn [x1 y1 x2 y2 conf cls fst snd]. repeat split; intros; first [reflexivity | lia].
    + destruct (class_name_in_table c_id) as (name & Hname & Hlook); [lia |].
      exists (mkBox name (Py.round p 4) a b c d :: bs).
      cbn [Infer.map_rows Infer.to_box]. rewrite Hname, IH.
      split; [reflexivity |]. constructor; [| assumption].
      unfold box_of_row; cbn [x1 y1 x2 y2 conf cls fst snd]. repeat split; intros; first [assumption | lia].
    + exists (mkBox (Py.str c_id) (Py.round p 4) a b c d :: bs).
      cbn [Infer.map_rows Infer.to_box].
      rewrite class_name_outside_table, IH by lia.
      split; [reflexivity |]. constructor; [| assumption].
      unfold box_of_row; cbn [x1 y1 x2 y2 conf cls fst snd]. repeat split; intros; first [reflexivity | lia].
Qed.

Lemma zip3_length {A B C} (a : list A) (b : list B) (c : list C) :
  length (Py.zip3 a b c) = (length a `min` (length b `min` length c))%nat.
Proof.
  revert b c. induction a as [| x a IH]; intros [| y b] [| z c]; cbn; try lia.
  rewrite IH. lia.
Qed.

Lemma zip3_lookup {A B C} (a : list A) (b : list B) (c : list C) (i : nat)
    (x : A) (y : B) (z : C) :
  a !! i = Some x -> b !! i = Some y -> c !! i = Some z ->
  Py.zip3 a b c !! i = Some (x, y, z).
Proof.
  revert b c i.
  induction a as [| x0 a IH]; intros [| y0 b] [| z0 c] [| i]; cbn;
    try discriminate.
  - now intros [= ->] [= ->] [= ->].
  - apply IH.
Qed.

(** The boxes mapped from the answer of the detector, row by row of its
    tensors. *)
Lemma detector_rows_boxes (results : list Results) (bs : list Box) :
  Infer.map_rows (Infer.detector_rows results) = Ok bs ->
  boxes_of_tensors results bs.
Proof.
  intros Hmap. unfold boxes_of_tensors. unfold Infer.detector_rows in Hmap.
  destruct results as [| r rest]; [now injection Hmap as <- |].
  destruct (boxes r) as [bx |]; [| now injection Hmap as <-].
  destruct (xyxy bx) as [xy |]; [| now injection Hmap as <-].
  destruct (map_rows_boxes
              (Py.zip3 (Infer.astype_int4 <$> xy) (Py.astype_int <$> boxes_cls bx)
                 (boxes_conf bx))) as (bs' & Hmap' & Hall).
  rewrite Hmap' in Hmap. injection Hmap as ->.
  split.
  - rewrite <- (Forall2_length _ _ _ Hall), zip3_length, !length_fmap. reflexivity.
  - intros i coords c p Hxy Hc Hp.
    assert (Hrow : Py.zip3 (Infer.astype_int4 <$> xy) (Py.astype_int <$> boxes_cls bx)
                     (boxes_conf bx) !! i
                   = Some (Infer.astype_int4 coords, Py.astype_int c, p)).
    { apply zip3_lookup; [| | exact Hp].
      - rewrite list_lookup_fmap, Hxy. reflexivity.
      - rewrite list_lookup_fmap, Hc. reflexivity. }
    destruct (Forall2_lookup_l _ _ _ _ _ Hall Hrow) as (b & Hb & Hcoords & Hconf & Hout & Hin).
    cbn [fst snd] in Hcoords, Hconf, Hout, Hin.
    exists b. split; [exact Hb |].
    split; [exact Hconf |]. split; [intros _; split; assumption |].
    intros _. exact Hcoords.
Qed.

(** C6.  Box mapping keeps detections of classes the table does not name.
    Whatever three tensors the detector returns in [results[0].boxes], the
    mapping block of [predict_ndarray] does not raise, and a prediction
    whose model load, resize and detection succeeded returns its boxes.
    There is one box for every row that the three tensors all have, at the
    row's own position.  The class index of the row is the row's entry of
    the class tensor cast to a 64-bit integer: when it is negative or at
    least the length of the table of class names, the box's class name is
    the decimal string of the index; when it is inside the table, the name
    is the table's entry. *)
Theorem box_mapping_keeps_unknown_classes (xy : list (Q * Q * Q * Q))
    (cls_t conf_t : list Q) (rest : list Results) :
  let results := mkResults (Some (mkBoxes (Some xy) cls_t conf_t)) :: rest in
  exists bs : list Box,
    (forall w : World,
        Infer.map_results results w = (Ok bs, set_env (interp (env w)) w))
    /\ (forall (img resized : Ndarray) (conf : Q) (h : Handle) (w w1 : World)
               (e2 e3 : Env),
          Infer.get_model w = (Ok (Some h), w1) ->
          cv2_resize img Config.INPUT_SIZE (env w1) = (Ok resized, e2) ->
          model_predict h resized conf e2 = (Ok results, e3) ->
          exists latency : Q,
            Infer.predict_ndarray img conf w
              = (Ok (bs, latency), set_env (interp e3) w1))
    /\ length bs = (length xy `min` (length cls_t `min` length conf_t))%nat
    /\ forall (i : nat) (coords : Q * Q * Q * Q) (c p : Q),
         xy !! i = Some coords -> cls_t !! i = Some c -> conf_t !! i = Some p ->
         exists b : Box,
           bs !! i = Some b
           /\ (int64 (Py.astype_int c) -> names_class (Py.astype_int c) (cls b)).
Proof.
  intros results.
  destruct (map_rows_boxes (Infer.detector_rows results)) as (bs & Hmap & _).
  pose proof (detector_rows_boxes results bs Hmap) as (Hlen & Hrows).
  exists bs. split; [| split; [| split]].
  - intros w. unfold Infer.map_results. now rewrite Hmap.
  - intros img resized conf h w w1 e2 e3 Hgm Hres Hdet.
    unfold Infer.predict_ndarray. unfold bind at 1. rewrite Hgm.
    unfold bind, observe, Infer._resize_if_needed, extern, Infer.map_results, ret.
    rewrite Hres. cbn [env set_env]. rewrite Hdet. cbn [env set_env].
    rewrite Hmap. eexists. reflexivity.
  - exact Hlen.
  - intros i coords c p Hxy Hc Hp.
    destruct (Hrows i coords c p Hxy Hc Hp) as (b & Hb & _ & Hname & _).
    exists b. split; assumption.
Qed.

End InferFacts.

Example class_name_known : Infer.class_name 6 = Ok "Danger Ahead"%string.
Proof. reflexivity. Qed.

Example class_name_too_large : Infer.class_name 17 = Ok "17"%string.
Proof. reflexivity. Qed.

Example class_name_negative : Infer.class_name (-3) = Ok "-3"%string.
Proof. reflexivity. Qed.

(** The detector reports class 6 and class 17: the second detection is
    kept, under the name "17". *)
Lemma box_mapping_keeps_unknown_classes_witness :
  exists bs : list Box,
    Infer.map_results (H := Demo.externals Demo.sc_off) Demo.two_detections
        (Demo.world0 Demo.sc_off 0)
      = (Ok bs, set_env (Demo.env_of Demo.sc_off (0 + (1 # 1000)) 0 [])
                  (Demo.world0 Demo.sc_off 0))
    /\ length bs = 2%nat
    /\ (exists b, bs !! 0%nat = Some b /\ cls b = "Danger Ahead"%string)
    /\ (exists b, bs !! 1%nat = Some b /\ cls b = "17"%string).
Proof.
  destruct (@box_mapping_keeps_unknown_classes (Demo.externals Demo.sc_off)
              [ (10, 10, 100, 100)%Q; (5 # 2, 7, 20, 30)%Q ] [ 6%Q; 17%Q ]
              [ (99 # 100)%Q; (1 # 3)%Q ] [])
    as (bs & Hmap & _ & Hlen & Hrows).
  exists bs. split; [exact (Hmap (Demo.world0 Demo.sc_off 0)) |].
  split; [exact Hlen |]. split.
  - destruct (Hrows 0%nat _ _ _ eq_refl eq_refl eq_refl) as (b & Hb & Hname).
    exists b. split; [exact Hb |].
    destruct Hname as (_ & Hin); [vm_compute; split; [discriminate | reflexivity] |].
    assert (Hlook : Config.CLASS_NAMES !! 6%nat = Some (cls b))
      by (apply Hin; vm_compute; split; [discriminate | reflexivity]).
    now injection Hlook as <-.
  - destruct (Hrows 1%nat _ _ _ eq_refl eq_refl eq_refl) as (b & Hb & Hname).
    exists b. split; [exact Hb |].
    destruct Hname as (Hout & _); [vm_compute; split; [discriminate | reflexivity] |].
    apply Hout. right. vm_compute. discriminate.
Defined.

(** The weights are missing at the first call and present at the second:
    the first call raises, the second loads. *)
Lemma get_model_failure_is_retryable_witness :
  let w := Demo.world0 Demo.sc_off 1 in
  let w1 := set_env (Demo.env_of Demo.sc_off 0 0 []) w in
  Infer.get_model w = (Raise (Exception "weights not found"), w1)
  /\ exists h w2, Infer.get_model w1 = (Ok (Some h), w2) /\ _model w2 = Some h.
Proof.
  intros w w1.
  destruct (@get_model_failure_is_retryable (Demo.externals Demo.sc_off) w
              (Exception "weights not found") (Demo.env_of Demo.sc_off 0 0 [])
              eq_refl eq_refl) as (Hraise & _ & Hretry & _).
  split; [exact Hraise |].
  destruct (Hretry (Demo.env_of Demo.sc_off 0 0 []) eq_refl) as (h & w2 & Hok & Hm & _).
  exists h, w2. split; assumption.
Defined.

(** Decoding takes 10/3 ms, resizing 2 ms, detection 50 ms and box mapping
    1 ms: 53 ms are reported. *)
Lemma predict_file_latency_witness :
  exists bs latency w',
    Infer.predict_file (H := Demo.externals Demo.sc_down) (content Demo.png) (1 # 4)
        (Demo.world0 Demo.sc_down 0) = (Ok (bs, latency), w')
    /\ (latency == 53)%Q.
Proof.
  destruct (Infer.predict_file (H := Demo.externals Demo.sc_down) (content Demo.png)
              (1 # 4) (Demo.world0 Demo.sc_down 0))
    as [[[bs latency] | x] w'] eqn:Hrun.
  - exists bs, latency, w'. split; [reflexivity |].
    destruct (@predict_file_latency (Demo.externals Demo.sc_down) _ _ _ _ _ _ Hrun)
      as (img & resized & h & results & e1 & e2 & e3 & w_ready
          & Hdec & Hgm & Hres & Hdet & _ & Hlat).
    injection Hdec as <- <-. injection Hgm as <- <-.
    injection Hres as <- <-. injection Hdet as <- <-.
    rewrite Hlat. reflexivity.
  - apply (f_equal (fun r => is_Ok r.1)) in Hrun. vm_compute in Hrun. discriminate Hrun.
Defined.

(** ** Racing callers of [get_model] *)

Section ThreadsFacts.
Context `{Externals}.
Import Threads.

Local Open Scope nat_scope.

(** A caller that is not interrupted behaves as [get_model]: four steps
    take it from the entry to its return (or its exception). *)
Lemma steps_get_model (w : World) :
  steps 4 AtCheck w = (outcome (Infer.get_model w).1, (Infer.get_model w).2).
Proof.
  unfold Infer.get_model, bind, Infer.read_model, Infer.new_YOLO, bind, extern,
    Infer.store_model, ret.
  cbn [steps thread_step Infer.read_model].
  destruct (_model w) as [h |] eqn:Hm.
  - cbn [steps thread_step Infer.read_model]. rewrite Hm. reflexivity.
  - cbn [steps thread_step]. unfold Infer.new_YOLO, bind, extern.
    destruct (YOLO Config.WEIGHTS_PATH (env w)) as [[[] | x] e1]; reflexivity.
Qed.

Lemma run_app (s1 s2 : list nat) (st : list pc * World) :
  run (s1 ++ s2) st = run s2 (run s1 st).
Proof. apply foldl_app. Qed.

Lemma run_solo (k i : nat) (p : pc) (ts : list pc) (w : World) :
  ts !! i = Some p ->
  run (replicate k i) (ts, w) = (<[i := (steps k p w).1]> ts, (steps k p w).2).
Proof.
  revert p ts w. induction k as [| k IH]; intros p ts w Hi.
  - cbn. now rewrite list_insert_id.
  - cbn [replicate run foldl steps]. unfold sched_step at 2. cbn [fst snd].
    rewrite Hi. destruct (thread_step p w) as [p' w'].
    fold (run (replicate k i) (<[i:=p']> ts, w')).
    rewrite (IH p').
    + now rewrite list_insert_insert_eq.
    + apply list_lookup_insert_eq. now apply lookup_lt_Some in Hi.
Qed.

(** Callers that arrive one after the other once the model is cached all
    return the cached handle and leave the state alone. *)
Lemma run_sequential_cached (m : nat) (done : list pc) (w : World) (h : Handle) :
  _model w = Some h ->
  run (mjoin ((fun i => replicate 4 i) <$> seq (length done) m))
      (done ++ replicate m AtCheck, w)
    = (done ++ replicate m (Returned (Some h)), w).
Proof.
  intros Hm. revert done. induction m as [| m IH]; intros done.
  - reflexivity.
  - cbn [seq fmap list_fmap mjoin list_join]. rewrite run_app.
    rewrite (run_solo 4 (length done) AtCheck).
    + rewrite steps_get_model, (get_model_cached w h Hm). cbn [outcome fst snd].
      cbn [replicate].
      replace (<[length done := Returned (Some h)]> (done ++ AtCheck :: replicate m AtCheck))
        with ((done ++ [Returned (Some h)]) ++ replicate m AtCheck).
      * replace (S (length done)) with (length (done ++ [Returned (Some h)])).
        -- rewrite IH. now rewrite <- app_assoc.
        -- rewrite length_app. cbn. lia.
      * rewrite <- app_assoc. cbn [app].
        rewrite insert_app_r_alt by lia. now rewrite Nat.sub_diag.
    + cbn [replicate]. apply list_lookup_middle. reflexivity.
Qed.

Lemma thread_step_inv (base : nat) (p : pc) (w : World) :
  base <= yolo_objects w ->
  (forall h, _model w = Some h -> built base w h) ->
  pc_ok base w p ->
  let p' := (thread_step p w).1 in
  let w' := (thread_step p w).2 in
  base <= yolo_objects w'
  /\ (forall h, _model w' = Some h -> built base w' h)
  /\ pc_ok base w' p'
  /\ (forall q, pc_ok base w q -> pc_ok base w' q)
  /\ yolo_objects w' + decided p <= yolo_objects w + decided p'.
Proof.
  intros Hbase Hmodel Hp.
  assert (Hgrow : forall e n q, yolo_objects w <= n ->
            pc_ok base w q -> pc_ok base (set_yolo_objects n (set_env e w)) q).
  { intros e n [| | h | | v | x] Hn; cbn; unfold built; cbn; try tauto.
    - lia.
    - intros (h & -> & Hb). exists h. split; [reflexivity | lia]. }
  destruct p as [| | h | | v | x]; cbn [thread_step].
  - unfold Infer.read_model.
    destruct (_model w) as [h |] eqn:Hm; cbn [fst snd];
      (split; [| split; [| split; [| split]]]); cbn [decided pc_ok];
      try assumption; try lia; try (intros; assumption).
    + intros h0 Hh. apply Hmodel. congruence.
    + eauto.
    + intros h0 Hh. congruence.
  - unfold Infer.new_YOLO, bind, extern.
    destruct (YOLO Config.WEIGHTS_PATH (env w)) as [[[] | x] e1]; cbn [fst snd];
      (split; [| split; [| split; [| split]]]); cbn [decided pc_ok];
      try (cbn; lia); try exact I.
    + intros h Hh. destruct (Hmodel h Hh). unfold built. cbn. lia.
    + unfold built. cbn. lia.
    + intros q Hq. apply Hgrow; [cbn; lia | assumption].
    + intros h Hh. destruct (Hmodel h Hh). unfold built. cbn. lia.
    + intros q Hq. apply (Hgrow e1 (yolo_objects w)) in Hq; [| lia].
      now destruct w.
  - cbn [Infer.store_model fst snd].
    (split; [| split; [| split; [| split]]]); cbn [decided pc_ok];
      try (cbn; lia).
    + intros h' [= <-]. exact Hp.
    + cbn. eauto.
    + intros [| | h' | | v | x']; cbn; unfold built; cbn; try tauto. eauto.
  - cbn [Infer.read_model fst snd].
    (split; [| split; [| split; [| split]]]); cbn [decided pc_ok];
      try assumption; try lia; try (intros; assumption).
    destruct Hp as (h & Hm). exists h. split; [exact Hm | exact (Hmodel h Hm)].
  - cbn [fst snd]. (split; [| split; [| split; [| split]]]);
      try assumption; try lia; intros; assumption.
  - cbn [fst snd]. (split; [| split; [| split; [| split]]]);
      try assumption; try lia; intros; assumption.
Qed.

Lemma sum_decided_insert (ts : list pc) (i : nat) (p p' : pc) :
  ts !! i = Some p ->
  sum_list_with decided (<[i := p']> ts) + decided p
    = sum_list_with decided ts + decided p'.
Proof.
  revert i. induction ts as [| t ts IH]; intros [| i] Hi; try discriminate.
  - injection Hi as ->. cbn. lia.
  - cbn. rewrite <- !Nat.add_assoc. f_equal. exact (IH i Hi).
Qed.

Lemma sched_step_inv (base : nat) (st : list pc * World) (i : nat) :
  race_inv base st -> race_inv base (sched_step st i).
Proof.
  destruct st as [ts w]. intros (Hbase & Hmodel & Hall & Hcount).
  unfold sched_step. cbn [fst snd] in *.
  destruct (ts !! i) as [p |] eqn:Hi;
    [| exact (conj Hbase (conj Hmodel (conj Hall Hcount)))].
  assert (Hp : pc_ok base w p).
  { rewrite Forall_forall in Hall. apply Hall. eapply list_elem_of_lookup_2, Hi. }
  destruct (thread_step_inv base p w Hbase Hmodel Hp) as (B & Mo & P & Mono & Cnt).
  destruct (thread_step p w) as [p' w']. cbn [fst snd] in *.
  split; [exact B | split; [exact Mo | split]]; cbn [fst snd].
  - apply Forall_insert; [| assumption].
    eapply Forall_impl; [exact Hall | exact Mono].
  - pose proof (sum_decided_insert ts i p p' Hi). lia.
Qed.

Lemma run_inv (base : nat) (schedule : list nat) (st : list pc * World) :
  race_inv base st -> race_inv base (run schedule st).
Proof.
  revert st. induction schedule as [| i schedule IH]; intros st Hinv.
  - exact Hinv.
  - cbn. apply IH. now apply sched_step_inv.
Qed.

Lemma run_length (schedule : list nat) (st : list pc * World) :
  length (run schedule st).1 = length st.1.
Proof.
  revert st. induction schedule as [| i schedule IH]; intros [ts w].
  - reflexivity.
  - cbn [run foldl]. fold (run schedule (sched_step (ts, w) i)). rewrite IH.
    unfold sched_step. cbn [fst snd]. destruct (ts !! i) as [p |]; [| reflexivity].
    destruct (thread_step p w). cbn. apply length_insert.
Qed.

Lemma sum_decided_bound (ts : list pc) : sum_list_with decided ts <= length ts.
Proof.
  induction ts as [| [] ts IH]; cbn in *; lia.
Qed.

Lemma race_inv_init (n : nat) (w : World) :
  _model w = None -> race_inv (yolo_objects w) (callers n, w).
Proof.
  intros Hm. unfold race_inv, callers. cbn [fst snd].
  split; [lia |]. split; [intros h Hh; congruence |]. split.
  - apply Forall_replicate. exact I.
  - induction n as [| n IH]; cbn in *; lia.
Qed.

(** C3, as the code has it.  [get_model] takes no lock.  Callers that run
    one after the other on an unset cache cause exactly one load and all
    return that instance.  Under an arbitrary interleaving every caller
    that returns holds a completed instance built during the race (never
    [None], never an object still under construction), but each caller
    that saw the cache unset runs the constructor itself: the number of
    loads is bounded by the number of callers, not by one. *)
Theorem get_model_callers (n : nat) (w : World) :
  _model w = None ->
  (forall e1, YOLO Config.WEIGHTS_PATH (env w) = (Ok tt, e1) ->
     run (sequential (S n)) (callers (S n), w) =
       (replicate (S n) (Returned (Some (yolo_objects w))),
        set_model (Some (yolo_objects w))
          (set_yolo_objects (S (yolo_objects w)) (set_env e1 w))))
  /\ (forall schedule,
        let st := run schedule (callers n, w) in
        length st.1 = n
        /\ yolo_objects w <= yolo_objects st.2 <= yolo_objects w + n
        /\ forall i v, st.1 !! i = Some (Returned v) ->
             exists h, v = Some h /\ yolo_objects w <= h < yolo_objects st.2).
Proof.
  intros Hm. split.
  - intros e1 Hload. unfold sequential, callers.
    cbn [seq fmap list_fmap mjoin list_join replicate]. rewrite run_app.
    rewrite (run_solo 4 0 AtCheck) by reflexivity.
    rewrite steps_get_model, (get_model_loads w e1 Hm Hload).
    cbn [outcome fst snd insert list_insert].
    apply (run_sequential_cached n [Returned (Some (yolo_objects w))]).
    reflexivity.
  - intros schedule st.
    pose proof (run_inv (yolo_objects w) schedule _ (race_inv_init n w Hm))
      as (Hbase & _ & Hall & Hcount).
    pose proof (run_length schedule (callers n, w)) as Hlen.
    fold st in Hbase, Hall, Hcount, Hlen.
    unfold callers in Hlen. cbn [fst] in Hlen. rewrite length_replicate in Hlen.
    pose proof (sum_decided_bound st.1) as Hsum.
    split; [exact Hlen |]. split; [lia |].
    intros i v Hi. rewrite Forall_forall in Hall.
    exact (Hall _ (list_elem_of_lookup_2 _ _ _ Hi)).
Qed.

End ThreadsFacts.

(** Two callers, with the switch falling between the test and the
    assignment: both construct a model and they return different ones. *)
Example get_model_race :
  let st := Threads.run (H := Demo.externals Demo.sc_off) [0; 1; 0; 1; 0; 0; 1; 1]%nat
              (Threads.callers 2, Demo.world0 Demo.sc_off 0) in
  st.1 = [Threads.Returned (Some 0%nat); Threads.Returned (Some 1%nat)]
  /\ yolo_objects st.2 = 2%nat.
Proof. split; reflexivity. Qed.

Lemma single_load_fails_under_race :
  ~ @single_load_under_any_schedule (Demo.externals Demo.sc_off).
Proof.
  intros Hclaim.
  destruct (Hclaim 2%nat [0; 1; 0; 1; 0; 0; 1; 1]%nat (Demo.world0 Demo.sc_off 0))
    as [Hloads _]; [lia | reflexivity | reflexivity |].
  discriminate Hloads.
Qed.

Lemma get_model_callers_witness :
  Threads.run (H := Demo.externals Demo.sc_off) (Threads.sequential 3)
      (Threads.callers 3, Demo.world0 Demo.sc_off 0)
    = (replicate 3 (Threads.Returned (Some 0%nat)),
       set_model (Some 0%nat) (set_yolo_objects 1 (Demo.world0 Demo.sc_off 0)))
  /\ (let st := Threads.run (H := Demo.externals Demo.sc_off) [0; 1; 0; 1; 0; 0; 1; 1]%nat
                  (Threads.callers 2, Demo.world0 Demo.sc_off 0) in
      (yolo_objects st.2 <= 2)%nat).
Proof.
  split.
  - exact (proj1 (@get_model_callers (Demo.externals Demo.sc_off) 2%nat
                    (Demo.world0 Demo.sc_off 0) eq_refl)
             (Demo.env_of Demo.sc_off 0 0 []) eq_refl).
  - intros st.
    pose proof (proj2 (@get_model_callers (Demo.externals Demo.sc_off) 2%nat
                         (Demo.world0 Demo.sc_off 0) eq_refl)
                  [0; 1; 0; 1; 0; 0; 1; 1]%nat) as (_ & Hloads & _).
    exact (proj2 Hloads).
Defined.

(** ** Request handlers *)

Section ServiceFacts.
Context `{Externals}.

Lemma sinks_untouched_refl (w : World) : sinks_untouched w w.
Proof. now repeat split. Qed.

Lemma sinks_untouched_trans (w1 w2 w3 : World) :
  sinks_untouched w1 w2 -> sinks_untouched w2 w3 -> sinks_untouched w1 w3.
Proof. unfold sinks_untouched. intros (-> & -> & ->) (-> & -> & ->). now repeat split. Qed.

Lemma get_model_sinks (w : World) : sinks_untouched w (Infer.get_model w).2.
Proof.
  unfold Infer.get_model, bind, Infer.read_model, Infer.new_YOLO, bind, extern,
    Infer.store_model, ret.
  destruct (_model w); [apply sinks_untouched_refl |].
  destruct (YOLO Config.WEIGHTS_PATH (env w)) as [[[] | x] e1];
    now repeat split.
Qed.

Lemma predict_file_sinks (file_bytes : bytes) (conf : Q) (w : World) :
  sinks_untouched w (Infer.predict_file file_bytes conf w).2.
Proof.
  unfold Infer.predict_file, Infer._read_image_bytes.
  unfold bind at 1. unfold extern at 1.
  destruct (image_open file_bytes (env w)) as [[img | x] e0];
    [| now repeat split].
  unfold Infer.predict_ndarray. unfold bind at 1.
  pose proof (get_model_sinks (set_env e0 w)) as Hgm.
  destruct (Infer.get_model (set_env e0 w)) as [[v | x] w1];
    cbn [snd] in Hgm; [| exact Hgm].
  apply (sinks_untouched_trans _ w1); [exact Hgm |].
  unfold bind, observe, Infer._resize_if_needed, extern, Infer.map_results, ret, raise.
  destruct (cv2_resize img Config.INPUT_SIZE (env w1)) as [[resized | x] e2];
    [| now repeat split].
  destruct v as [h |]; [| now repeat split].
  cbn [env set_env].
  destruct (model_predict h resized conf e2) as [[results | x] e3];
    [| now repeat split].
  cbn [env set_env].
  destruct (Infer.map_rows (Infer.detector_rows results)); now repeat split.
Qed.


Lemma batch_loop_results (files : list UploadFile) (conf : Q)
    (acc acc' : Service.BatchAcc) (w w' : World) :
  Service.batch_loop files conf acc w = (Ok acc', w') ->
  exists rs, acc'.1.1 = acc.1.1 ++ rs /\ Forall2 (entry_for conf) files rs.
Proof.
  revert acc w. induction files as [| f files IH]; intros acc w Hrun.
  - injection Hrun as <- <-. exists []. split; [now rewrite app_nil_r | constructor].
  - cbn [Service.batch_loop] in Hrun. unfold bind at 1 in Hrun.
    unfold Service.read, ret in Hrun. unfold bind at 1 in Hrun.
    destruct (Infer.predict_file (content f) conf w) as [[[bs lat] | x] w1] eqn:Hp;
      [| discriminate].
    apply IH in Hrun as (rs & Hacc & Hall). cbn [fst snd] in Hacc.
    exists (Service.mkBatchResult (filename f) bs lat :: rs). split.
    + rewrite Hacc, <- app_assoc. reflexivity.
    + constructor; [| exact Hall]. split; [reflexivity |].
      exists w, w1. exact Hp.
Qed.

Lemma batch_loop_sinks (files : list UploadFile) (conf : Q)
    (acc : Service.BatchAcc) (w : World) :
  sinks_untouched w (Service.batch_loop files conf acc w).2.
Proof.
  revert acc w. induction files as [| f files IH]; intros acc w.
  - apply sinks_untouched_refl.
  - cbn [Service.batch_loop]. unfold bind at 1. unfold Service.read, ret.
    unfold bind at 1.
    pose proof (predict_file_sinks (content f) conf w) as Hp.
    destruct (Infer.predict_file (content f) conf w) as [[[bs lat] | x] w1];
      cbn [snd] in Hp; [| exact Hp].
    eapply sinks_untouched_trans; [exact Hp | apply IH].
Qed.

End ServiceFacts.

(** ** Rounding *)

Lemma round_half_even_error (x : Q) :
  (Qabs (inject_Z (Py.round_half_even x) - x) <= 1 # 2)%Q.
Proof.
  pose proof (Qfloor_le x) as Hlo. pose proof (Qlt_floor x) as Hhi.
  rewrite inject_Z_plus in Hhi. change (inject_Z 1) with 1%Q in Hhi.
  apply Qabs_Qle_condition. unfold Py.round_half_even.
  destruct (x - inject_Z (Qfloor x) ?= 1 # 2)%Q eqn:Hcmp;
    [apply Qeq_alt in Hcmp; destruct (Z.even (Qfloor x))
    | apply Qlt_alt in Hcmp
    | apply Qgt_alt in Hcmp];
    rewrite ?inject_Z_plus; change (inject_Z 1) with 1%Q;
    generalize dependent (inject_Z (Qfloor x)); intros f Hlo Hhi Hcmp;
    split; lra.
Qed.

Lemma round2_error (x : Q) : (Qabs (Py.round x 2 - x) <= 1 # 200)%Q.
Proof.
  unfold Py.round. change (inject_Z (10 ^ Z.of_nat 2)) with (100 # 1)%Q.
  pose proof (round_half_even_error (x * (100 # 1))) as Herr.
  apply Qabs_Qle_condition in Herr. apply Qabs_Qle_condition.
  generalize dependent (inject_Z (Py.round_half_even (x * (100 # 1)))).
  intros r Herr. unfold Qdiv. change (/ (100 # 1))%Q with (1 # 100)%Q.
  split; lra.
Qed.

Lemma avg_error (e b a n : Q) :
  (1 <= n)%Q ->
  (Qabs (b - e) <= 1 # 200)%Q ->
  (Qabs (a - e / n) <= 1 # 200)%Q ->
  (Qabs (a - b / n) <= 1 # 100)%Q.
Proof.
  intros Hn Hb Ha.
  apply Qabs_Qle_condition in Hb. apply Qabs_Qle_condition in Ha.
  apply Qabs_Qle_condition.
  assert (Hc : (0 < / n)%Q) by (apply Qinv_lt_0_compat; lra).
  assert (Hc1 : (/ n <= 1)%Q).
  { apply Qle_shift_inv_r; lra. }
  unfold Qdiv in *.
  set (c := (/ n)%Q) in *.
  split; nra.
Qed.

(** ** Batch endpoint *)

Section BatchFacts.
Context `{Externals}.

Lemma entries_filenames (conf : Q) (files : list UploadFile)
    (rs : list Service.BatchResult) :
  Forall2 (entry_for conf) files rs ->
  Service.result_filename <$> rs = filename <$> files.
Proof.
  induction 1 as [| f r files rs [Hname _] _ IH]; [reflexivity |].
  cbn. now rewrite Hname, IH.
Qed.

(** C7, as the code has it.  A batch call that returns has one result per
    uploaded file, in upload order, each holding what [predict_file]
    returned for that file.  With [elapsed] the unrounded duration of the
    loop in milliseconds, the response carries [round(elapsed, 2)] as
    batch latency and [round(elapsed / max(1, N), 2)] as average: both
    figures are rounded separately, so the average is within 0.01 ms of
    the reported batch latency divided by [N], not equal to it. *)
Theorem predict_batch_order_and_average (files : list UploadFile) (conf : Q)
    (w w' : World) (resp : Service.BatchResponse) :
  Service.predict_batch files conf w = (Ok resp, w') ->
  let n := Z.of_nat (length files) in
  let elapsed := ((perf_counter (env w') - perf_counter (env w)) * 1000)%Q in
  Forall2 (entry_for conf) files (Service.results resp)
  /\ Service.result_filename <$> Service.results resp = filename <$> files
  /\ Service.batch_size resp = n
  /\ Service.batch_latency_ms resp = Py.round elapsed 2
  /\ Service.avg_latency_ms resp = Py.round (elapsed / inject_Z (Z.max 1 n)) 2
  /\ (0 < n ->
      (Qabs (Service.avg_latency_ms resp - Service.batch_latency_ms resp / inject_Z n)
         <= 1 # 100)%Q).
Proof.
  intros Hrun n elapsed.
  unfold Service.predict_batch in Hrun. unfold bind at 1, observe at 1 in Hrun.
  unfold bind at 1 in Hrun.
  destruct (Service.batch_loop files conf ([], ∅, 0) w)
    as [[[[rs counts] total] | x] w1] eqn:Hloop; [| discriminate].
  unfold bind at 1, observe at 1 in Hrun. unfold bind at 1 in Hrun.
  match type of Hrun with
  | context [Mltrack.log_async ?name ?ms ?ps w1] =>
      destruct (log_async_total name ms ps w1) as (q & u & Hlog);
      rewrite Hlog in Hrun
  end.
  unfold ret in Hrun. injection Hrun as <- <-.
  destruct (batch_loop_results _ _ _ _ _ _ Hloop) as (rs' & Hrs & Hall).
  cbn [fst snd app] in Hrs. subst rs'.
  cbn [Service.results Service.batch_size Service.batch_latency_ms
       Service.avg_latency_ms].
  assert (Henv : env (set_q q u w1) = env w1) by reflexivity.
  subst elapsed. rewrite Henv.
  split; [exact Hall |]. split; [exact (entries_filenames _ _ _ Hall) |].
  split; [reflexivity |]. split; [reflexivity |]. split; [reflexivity |].
  intros Hpos. fold n. replace (Z.max 1 n) with n by lia.
  unfold Py.float.
  apply (avg_error ((perf_counter (env w1) - perf_counter (env w)) * 1000)%Q).
  - change 1%Q with (inject_Z 1). rewrite <- Zle_Qle. lia.
  - apply round2_error.
  - apply round2_error.
Qed.

End BatchFacts.

(** Three images, 10 ms for the whole loop: the response says
    [batch_latency_ms = 10.0] and [avg_latency_ms = 3.33], and 10/3 is
    not 3.33. *)
Lemma average_is_not_batch_over_n :
  ~ @average_is_batch_over_n (Demo.externals Demo.sc_up).
Proof.
  intros Hclaim.
  destruct (Service.predict_batch (H := Demo.externals Demo.sc_up)
              [Demo.png; Demo.png; Demo.png] (1 # 4) (Demo.world0 Demo.sc_up 0))
    as [[resp | x] w'] eqn:Hrun.
  - destruct (Hclaim _ _ _ _ _ Hrun) as [_ Havg].
    apply (f_equal fst) in Hrun. vm_compute in Hrun. injection Hrun as <-.
    vm_compute in Havg. discriminate Havg.
  - apply (f_equal fst) in Hrun. vm_compute in Hrun. discriminate Hrun.
Qed.

Lemma predict_batch_order_and_average_witness :
  exists resp w',
    Service.predict_batch (H := Demo.externals Demo.sc_up)
        [Demo.png; Demo.png; Demo.png] (1 # 4) (Demo.world0 Demo.sc_up 0)
      = (Ok resp, w')
    /\ Service.result_filename <$> Service.results resp
       = ["00006.png"; "00006.png"; "00006.png"]%string
    /\ (Qabs (Service.avg_latency_ms resp - Service.batch_latency_ms resp / inject_Z 3)
          <= 1 # 100)%Q.
Proof.
  destruct (Service.predict_batch (H := Demo.externals Demo.sc_up)
              [Demo.png; Demo.png; Demo.png] (1 # 4) (Demo.world0 Demo.sc_up 0))
    as [[resp | x] w'] eqn:Hrun.
  - exists resp, w'. split; [reflexivity |].
    destruct (@predict_batch_order_and_average (Demo.externals Demo.sc_up)
                _ _ _ _ _ Hrun) as (_ & Hnames & _ & _ & _ & Hnear).
    split; [exact Hnames | apply Hnear; reflexivity].
  - apply (f_equal (fun r => is_Ok r.1)) in Hrun. vm_compute in Hrun. discriminate Hrun.
Defined.

(** ** Audit file and logger calls of the handlers *)

Section HandlerFacts.
Context `{Externals}.

Lemma writerows_appends (f : UploadFile) (latency : Q) (bs : list Box) (w : World) :
  Service.for_each_row f latency bs w =
    (Ok tt,
     set_env (env_after_rows (env w) f latency bs)
       (set_pred_log (pred_log w ++ audit_rows (env w) f latency bs) w)).
Proof.
  revert w. induction bs as [| b bs IH]; intros w.
  - cbn. rewrite app_nil_r. now destruct w.
  - unfold Service.for_each_row in *. cbn [for_each]. unfold bind at 1.
    unfold Service.writerow at 1. rewrite IH.
    cbn [env set_env set_pred_log pred_log audit_rows env_after_rows
         yolo_objects _model _q unfinished_tasks].
    rewrite <- app_assoc. reflexivity.
Qed.


(** What a [predict] call that answers 200 has done, step by step. *)
Lemma predict_ok_inv (f : UploadFile) (conf : Q) (w w' : World)
    (resp : Service.PredictResponse) :
  Service.predict f conf w = (Ok resp, w') ->
  Service.bad_content_type f = false
  /\ exists (bs : list Box) (lat : Q) (w1 : World) (e2 : Env),
       Infer.predict_file (content f) conf w = (Ok (bs, lat), w1)
       /\ open_append (Service.getenv "PRED_LOG" "artifacts/predict_log.csv") (env w1)
          = (Ok tt, e2)
       /\ resp = Service.mkPredictResponse (filename f) conf bs (Py.round lat 3)
       /\ Mltrack.log_async "inference" (Service.inference_metrics bs lat)
            (Some (Service.log_params conf))
            (set_env (env_after_rows e2 f lat bs)
               (set_pred_log (pred_log w1 ++ audit_rows e2 f lat bs) w1))
          = (Ok tt, w').
Proof.
  unfold Service.predict.
  destruct (Service.bad_content_type f); [discriminate |].
  intros Hrun. split; [reflexivity |].
  unfold try_except in Hrun. unfold bind at 1 in Hrun.
  unfold Service.read, ret in Hrun. unfold bind at 1 in Hrun.
  destruct (Infer.predict_file (content f) conf w) as [[[bs lat] | x] w1] eqn:Hp;
    [| discriminate].
  unfold bind at 1 in Hrun. unfold Service.csv_logging in Hrun.
  unfold bind at 1 in Hrun. unfold extern at 1 in Hrun.
  destruct (open_append (Service.getenv "PRED_LOG" "artifacts/predict_log.csv") (env w1))
    as [[[] | x] e2] eqn:Hopen; [| discriminate].
  rewrite writerows_appends in Hrun. cbn [env set_env pred_log] in Hrun.
  unfold bind at 1 in Hrun.
  match type of Hrun with
  | context [Mltrack.log_async ?name ?ms ?ps ?w2] =>
      destruct (log_async_total name ms ps w2) as (q & u & Hlog);
      rewrite Hlog in Hrun
  end.
  injection Hrun as <- <-.
  exists bs, lat, w1, e2. repeat split; assumption.
Qed.


(** C8.  The claim holds for [/predict] (lemma above) and fails for
    [/predict_batch]: the batch handler has no CSV block, and whatever the
    files and however many boxes are detected, the audit file is after the
    call what it was before. *)
Theorem predict_batch_writes_no_audit_line (files : list UploadFile) (conf : Q)
    (w : World) :
  pred_log (Service.predict_batch files conf w).2 = pred_log w.
Proof.
  unfold Service.predict_batch. unfold bind at 1, observe at 1.
  unfold bind at 1.
  pose proof (batch_loop_sinks files conf ([], ∅, 0) w) as (Hloop & _).
  destruct (Service.batch_loop files conf ([], ∅, 0) w)
    as [[[[rs counts] total] | x] w1]; cbn [snd] in Hloop; [| exact Hloop].
  unfold bind at 1, observe at 1. unfold bind at 1.
  match goal with
  | |- context [Mltrack.log_async ?name ?ms ?ps w1] =>
      destruct (log_async_total name ms ps w1) as (q & u & Hlog);
      rewrite Hlog
  end.
  exact Hloop.
Qed.

Lemma string_length_app (s1 s2 : string) :
  String.length (s1 +:+ s2) = (String.length s1 + String.length s2)%nat.
Proof.
  induction s1 as [| a s1 IH]; [reflexivity |].
  change (String a s1 +:+ s2) with (String a (s1 +:+ s2)).
  cbn [String.length Nat.add]. now f_equal.
Qed.

Lemma string_app_suffix_inj (s1 s2 s : string) : s1 +:+ s = s2 +:+ s -> s1 = s2.
Proof.
  revert s2. induction s1 as [| a s1 IH]; intros [| b s2] Heq.
  - reflexivity.
  - apply (f_equal String.length) in Heq.
    rewrite !string_length_app in Heq. cbn [String.length] in Heq. lia.
  - apply (f_equal String.length) in Heq.
    rewrite !string_length_app in Heq. cbn [String.length] in Heq. lia.
  - change (String a (s1 +:+ s) = String b (s2 +:+ s)) in Heq.
    injection Heq as -> Heq. f_equal. now apply IH.
Qed.

Lemma class_key_inj (c1 c2 : string) : class_key c1 = class_key c2 -> c1 = c2.
Proof.
  unfold class_key. intros Heq. apply String.app_inj in Heq.
  now apply string_app_suffix_inj in Heq.
Qed.

Lemma class_metrics_lookup (counts : gmap string Z) (c : string) (k : Z) :
  counts !! c = Some k ->
  Service.class_metrics counts !! class_key c = Some (Py.float k).
Proof.
  intros Hc. unfold Service.class_metrics. apply elem_of_list_to_map_1.
  - rewrite <- list_fmap_compose.
    apply NoDup_fmap_2_strong; [| apply NoDup_map_to_list].
    intros [c1 k1] [c2 k2] H1 H2 Heq. cbn in Heq.
    apply class_key_inj in Heq. subst c2.
    apply elem_of_map_to_list in H1, H2. congruence.
  - apply list_elem_of_fmap. exists (c, k). split; [reflexivity |].
    now apply elem_of_map_to_list.
Qed.

Lemma class_metrics_other_key (counts : gmap string Z) (key : string) :
  (forall c, key <> class_key c) -> Service.class_metrics counts !! key = None.
Proof.
  intros Hkey. unfold Service.class_metrics. apply not_elem_of_list_to_map_1.
  rewrite <- list_fmap_compose. intros Hin.
  apply list_elem_of_fmap in Hin as ([c k] & Heq & _). cbn in Heq.
  exact (Hkey c Heq).
Qed.

(** C9.  A successful [/predict] call with the tracker configured and room
    in the queue puts exactly one event on the queue.  Its metrics hold the
    latency, the number of boxes and one count per class; its parameters
    hold the threshold and the worker count.  The input size it reports is
    the literal ["640"], whereas the configured [INPUT_SIZE] is 320. *)
Theorem predict_logs_literal_imgsz (f : UploadFile) (conf : Q) (w w' : World)
    (resp : Service.PredictResponse) :
  Py.truthy Mltrack._MLFLOW_URI = true ->
  Mltrack.qsize w < 10000 ->
  Service.predict f conf w = (Ok resp, w') ->
  exists ev lat,
    _q w' = _q w ++ [Some ev]
    /\ run_name ev = "inference"%string
    /\ Service.latency_ms resp = Py.round lat 3
    /\ metrics ev !! "latency_ms"%string = Some lat
    /\ metrics ev !! "n_boxes"%string
       = Some (Py.float (Z.of_nat (length (Service.resp_boxes resp))))
    /\ (forall c k,
          foldl Service.count_box ∅ (Service.resp_boxes resp) !! c = Some k ->
          metrics ev !! class_key c = Some (Py.float k))
    /\ params ev !! "conf"%string = Some (str_float conf)
    /\ params ev !! "api_workers"%string = Some (Service.getenv "API_WORKERS" "1")
    /\ params ev !! "imgsz"%string = Some "640"%string
    /\ Py.str Config.INPUT_SIZE = "320"%string.
Proof.
  intros Hon Hroom Hrun.
  destruct (predict_ok_inv _ _ _ _ _ Hrun)
    as (_ & bs & lat & w1 & e2 & Hp & _ & -> & Hlog).
  pose proof (predict_file_sinks (content f) conf w) as (_ & Hq & _).
  rewrite Hp in Hq. cbn [snd] in Hq.
  rewrite log_async_enqueues in Hlog;
    [| exact Hon | unfold Mltrack.qsize in *; cbn [_q set_pred_log set_env]; now rewrite Hq].
  injection Hlog as <-. cbn [_q set_q set_pred_log set_env default].
  eexists _, lat. split; [rewrite Hq; reflexivity |].
  cbn [run_name metrics params Service.latency_ms Service.resp_boxes].
  split; [reflexivity |]. split; [reflexivity |].
  assert (Hplain : forall key : string,
             (forall c, key <> class_key c) ->
             Service.inference_metrics bs lat !! key
             = (<["n_boxes"%string := Py.float (Z.of_nat (length bs))]>
                  (<["latency_ms"%string := lat]> (∅ : gmap string Q))) !! key).
  { intros key Hkey. unfold Service.inference_metrics.
    apply lookup_union_r. now apply class_metrics_other_key. }
  split.
  { rewrite Hplain by (intros c; unfold class_key; cbn; discriminate).
    rewrite lookup_insert_ne by discriminate. apply lookup_insert_eq. }
  split.
  { rewrite Hplain by (intros c; unfold class_key; cbn; discriminate).
    apply lookup_insert_eq. }
  split.
  { intros c k Hc. unfold Service.inference_metrics.
    apply lookup_union_Some_l. now apply class_metrics_lookup. }
  unfold Service.log_params.
  split.
  { rewrite !lookup_insert_ne by discriminate. apply lookup_insert_eq. }
  split; [apply lookup_insert_eq |].
  split; [| reflexivity].
  rewrite lookup_insert_ne by discriminate. apply lookup_insert_eq.
Qed.

Lemma batch_loop_ignores_content_type (g : UploadFile -> option string)
    (files : list UploadFile) (conf : Q) (acc : Service.BatchAcc) (w : World) :
  Service.batch_loop (retyped g <$> files) conf acc w
    = Service.batch_loop files conf acc w.
Proof.
  revert acc w. induction files as [| f files IH]; intros acc w; [reflexivity |].
  cbn [fmap list_fmap Service.batch_loop].
  unfold bind, Service.read, ret. cbn [content filename retyped].
  destruct (Infer.predict_file (content f) conf w) as [[[bs lat] | x] w1];
    [| reflexivity].
  apply IH.
Qed.

(** C10.  An upload without content type, or whose content type starts
    with neither ["image/"] nor ["application/octet-stream"], makes
    [/predict] raise the 400 error and nothing else: the state (model
    cache, clock, audit file, logger queue) is the one the call started
    from.  [/predict_batch] never looks at content types: replacing them
    by any others changes neither its result nor its effects. *)
Theorem predict_rejects_other_content_types (f : UploadFile) (conf : Q) (w : World) :
  content_type f = None
  \/ (exists ct, content_type f = Some ct
                 /\ String.prefix "image/" ct = false
                 /\ String.prefix "application/octet-stream" ct = false) ->
  Service.predict f conf w
    = (Raise (HTTPException 400 "Please upload an image file."), w)
  /\ forall (g : UploadFile -> option string) (files : list UploadFile),
       Service.predict_batch (retyped g <$> files) conf w
         = Service.predict_batch files conf w.
Proof.
  intros Hbad. split.
  - unfold Service.predict.
    assert (Hb : Service.bad_content_type f = true).
    { unfold Service.bad_content_type, Py.startswith.
      destruct Hbad as [-> | (ct & -> & H1 & H2)]; [reflexivity |].
      cbn [existsb]. now rewrite H1, H2. }
    now rewrite Hb.
  - intros g files. unfold Service.predict_batch.
    rewrite length_fmap. unfold bind, observe.
    now rewrite batch_loop_ignores_content_type.
Qed.

End HandlerFacts.


(** One image with two detections: [/predict] leaves two lines in the
    audit file, [/predict_batch] answers with the same two boxes and leaves
    none. *)
Example predict_writes_two_rows :
  let r := Service.predict (H := Demo.externals Demo.sc_up) Demo.png (1 # 4)
             (Demo.world0 Demo.sc_up 0) in
  is_Ok r.1 = true /\ length (pred_log r.2) = 2%nat.
Proof. vm_compute. split; reflexivity. Qed.

(** The clock is read for each line: lines of one request that are written
    across a second boundary carry different timestamps. *)
Example predict_reads_the_clock_for_each_row :
  let r := Service.predict (H := Demo.externals Demo.sc_slow_disk) Demo.png (1 # 4)
             (Demo.world0 Demo.sc_slow_disk 0) in
  row_time <$> pred_log r.2
    = ["2025-01-01 00:00:00"; "2025-01-01 00:00:01"]%string.
Proof. vm_compute. reflexivity. Qed.

Example predict_batch_writes_no_row :
  let r := Service.predict_batch (H := Demo.externals Demo.sc_up) [Demo.png] (1 # 4)
             (Demo.world0 Demo.sc_up 0) in
  (length ∘ Service.result_boxes <$>
     match r.1 with Ok resp => Service.results resp | Raise _ => [] end) = [2%nat]
  /\ pred_log r.2 = [].
Proof. vm_compute. split; reflexivity. Qed.

Lemma predict_logs_literal_imgsz_witness :
  exists resp w',
    Service.predict (H := Demo.externals Demo.sc_up) Demo.png (1 # 4)
        (Demo.world0 Demo.sc_up 0) = (Ok resp, w')
    /\ exists ev,
         _q w' = [Some ev]
         /\ params ev !! "imgsz"%string = Some "640"%string
         /\ Py.str Config.INPUT_SIZE = "320"%string.
Proof.
  destruct (Service.predict (H := Demo.externals Demo.sc_up) Demo.png (1 # 4)
              (Demo.world0 Demo.sc_up 0)) as [[resp | x] w'] eqn:Hrun.
  - exists resp, w'. split; [reflexivity |].
    assert (Hon : Py.truthy (@Mltrack._MLFLOW_URI (Demo.externals Demo.sc_up)) = true)
      by (vm_compute; reflexivity).
    assert (Hroom : Mltrack.qsize (Demo.world0 Demo.sc_up 0) < 10000)
      by (vm_compute; reflexivity).
    destruct (@predict_logs_literal_imgsz (Demo.externals Demo.sc_up) _ _ _ _ _
                Hon Hroom Hrun)
      as (ev & lat & Hq & _ & _ & _ & _ & _ & _ & _ & Himgsz & Hsize).
    exists ev. split; [exact Hq |]. split; assumption.
  - apply (f_equal (fun r => is_Ok r.1)) in Hrun. vm_compute in Hrun. discriminate Hrun.
Defined.

Lemma predict_rejects_other_content_types_witness :
  let notes := mkUploadFile "notes.txt" (Some "text/plain"%string) [Byte.x68; Byte.x69] in
  Service.predict (H := Demo.externals Demo.sc_up) notes (1 # 4) (Demo.world0 Demo.sc_up 0)
    = (Raise (HTTPException 400 "Please upload an image file."), Demo.world0 Demo.sc_up 0).
Proof.
  intros notes.
  refine (proj1 (@predict_rejects_other_content_types (Demo.externals Demo.sc_up)
                   notes (1 # 4) (Demo.world0 Demo.sc_up 0) _)).
  right. exists "text/plain"%string. repeat split; reflexivity.
Defined.

(** * Further properties of the code *)

(** ** The logger's queue *)

Section QueueFacts.
Context `{Externals}.

Lemma log_async_full (name : string) (ms : gmap string Q)
    (ps : option (gmap string string)) (w : World) :
  Py.truthy Mltrack._MLFLOW_URI = true ->
  10000 <= Mltrack.qsize w ->
  Mltrack.log_async name ms ps w = (Ok tt, w).
Proof.
  intros Hon Hfull. unfold Mltrack.log_async. rewrite Hon. cbn [negb].
  unfold try_except. now rewrite (put_nowait_full _ w Hfull).
Qed.

Lemma log_async_off (name : string) (ms : gmap string Q)
    (ps : option (gmap string string)) (w : World) :
  Py.truthy Mltrack._MLFLOW_URI = false ->
  Mltrack.log_async name ms ps w = (Ok tt, w).
Proof. intros Hoff. unfold Mltrack.log_async. now rewrite Hoff. Qed.

(** X1.  [log_async] keeps the queue within its capacity and within
    [unfinished_tasks]; it adds at most one item. *)
Theorem log_async_keeps_queue_bounded (name : string) (ms : gmap string Q)
    (ps : option (gmap string string)) (w : World) :
  Mltrack.qsize w <= 10000 ->
  Mltrack.qsize w <= unfinished_tasks w ->
  let w' := (Mltrack.log_async name ms ps w).2 in
  Mltrack.qsize w' <= 10000
  /\ Mltrack.qsize w' <= unfinished_tasks w'
  /\ Mltrack.qsize w <= Mltrack.qsize w' <= Mltrack.qsize w + 1.
Proof.
  intros Hcap Hinv.
  destruct (Py.truthy Mltrack._MLFLOW_URI) eqn:Hon.
  - destruct (Z_lt_le_dec (Mltrack.qsize w) 10000) as [Hroom | Hfull].
    + rewrite (log_async_enqueues name ms ps w Hon Hroom). cbn [snd].
      unfold Mltrack.qsize in *. cbn [_q set_q unfinished_tasks].
      rewrite length_app. cbn [length]. lia.
    + rewrite (log_async_full name ms ps w Hon Hfull). cbn [snd]. lia.
  - rewrite (log_async_off name ms ps w Hon). cbn [snd]. lia.
Qed.

Lemma log_all_spec (evs : list LogEvent) (w : World) :
  Py.truthy Mltrack._MLFLOW_URI = true ->
  log_all evs w =
    (Ok tt,
     set_q (_q w ++ (Some <$> take (room w) evs))
       (unfinished_tasks w + Z.of_nat (length (take (room w) evs))) w).
Proof.
  intros Hon. revert w. induction evs as [| ev evs IH]; intros w.
  - rewrite take_nil. cbn [fmap list_fmap length log_all for_each ret].
    rewrite app_nil_r, Z.add_0_r. now destruct w.
  - unfold log_all in *. cbn [for_each]. unfold bind at 1.
    destruct (Z_lt_le_dec (Mltrack.qsize w) 10000) as [Hroom | Hfull].
    + rewrite (log_async_enqueues _ _ _ w Hon Hroom). rewrite IH.
      assert (Hr : room w = S (room (set_q (_q w ++ [Some ev]) (unfinished_tasks w + 1) w))).
      { unfold room, Mltrack.maxsize, Mltrack.qsize in *. cbn [_q set_q].
        rewrite length_app. cbn [length]. lia. }
      rewrite Hr. cbn [take fmap list_fmap length default].
      unfold set_q. cbn [_q unfinished_tasks env yolo_objects _model pred_log].
      rewrite <- app_assoc. cbn [app]. destruct ev. cbn.
      do 2 f_equal. lia.
    + rewrite (log_async_full _ _ _ w Hon Hfull), IH.
      assert (Hr : room w = 0%nat).
      { unfold room, Mltrack.maxsize. lia. }
      rewrite Hr. reflexivity.
Qed.

(** X2.  Producers never wait: of a burst of events the queue takes as many as
    it has free slots, in call order, and the later ones are dropped; no
    call raises. *)
Theorem log_all_drops_newest (evs : list LogEvent) (w : World) :
  Py.truthy Mltrack._MLFLOW_URI = true ->
  (log_all evs w).1 = Ok tt
  /\ _q (log_all evs w).2 = _q w ++ (Some <$> take (room w) evs).
Proof.
  intros Hon. rewrite (log_all_spec evs w Hon). split; reflexivity.
Qed.

Lemma worker_loop_prefix (evs : list LogEvent) (rest : list (option LogEvent))
    (fuel : nat) (w : World) :
  _q w = (Some <$> evs) ++ rest ->
  Mltrack.qsize w <= unfinished_tasks w ->
  Mltrack.worker_loop (length evs + fuel) w =
    Mltrack.worker_loop fuel
      (set_q rest (unfinished_tasks w - Z.of_nat (length evs))
         (set_env (foldl deliver (env w) evs) w)).
Proof.
  revert w. induction evs as [| ev evs IH]; intros w Hq Hinv.
  - cbn [length Nat.add foldl fmap list_fmap app] in *. f_equal.
    destruct w; cbn in *. subst. unfold set_q, set_env. cbn. f_equal. lia.
  - assert (Hu : 1 <= unfinished_tasks w).
    { unfold Mltrack.qsize in Hinv. rewrite Hq in Hinv. cbn in Hinv. lia. }
    assert (Hq' : _q w = Some ev :: ((Some <$> evs) ++ rest)) by exact Hq.
    change (length (ev :: evs) + fuel)%nat with (S (length evs + fuel)).
    rewrite (worker_iteration _ ev _ w Hq' Hu). rewrite IH.
    + f_equal. unfold set_q, set_env. cbn. f_equal. lia.
    + reflexivity.
    + unfold Mltrack.qsize in *. rewrite Hq' in Hinv. cbn [length] in Hinv.
      cbn [_q set_q unfinished_tasks set_env]. lia.
Qed.

(** X3.  The worker handles the items in front of the first [None] and then
    returns; what follows the [None] stays in the queue and [task_done] is
    not called for the [None]. *)
Theorem worker_stops_at_none (evs : list LogEvent) (rest : list (option LogEvent))
    (fuel : nat) (w : World) :
  _q w = (Some <$> evs) ++ None :: rest ->
  Mltrack.qsize w <= unfinished_tasks w ->
  Mltrack.worker_loop (length evs + S fuel) w =
    (Mltrack.Stopped,
     set_q rest (unfinished_tasks w - Z.of_nat (length evs))
       (set_env (foldl deliver (env w) evs) w)).
Proof.
  intros Hq Hinv. rewrite (worker_loop_prefix evs (None :: rest) (S fuel) w Hq Hinv).
  reflexivity.
Qed.

(** X4.  The two mlflow calls before the loop are outside the [try]: when one
    of them raises, the worker thread ends with that exception and has not
    taken anything from the queue. *)
Theorem worker_setup_failure_is_fatal (fuel : nat) (w w1 : World) (x : exn) :
  Py.truthy Mltrack._MLFLOW_URI = true ->
  (let* _ := extern (mlflow_set_tracking_uri (default "" Mltrack._MLFLOW_URI)) in
   extern (mlflow_set_experiment Mltrack._EXP)) w = (Raise x, w1) ->
  Mltrack._worker fuel w = (Mltrack.Crashed x, w1)
  /\ _q w1 = _q w /\ unfinished_tasks w1 = unfinished_tasks w.
Proof.
  intros Hon Hsetup. unfold Mltrack._worker. rewrite Hon. cbn [negb].
  rewrite Hsetup. split; [reflexivity |].
  unfold bind, extern in Hsetup.
  destruct (mlflow_set_tracking_uri (default "" Mltrack._MLFLOW_URI) (env w))
    as [[[] | y] e1].
  - cbn [env set_env] in Hsetup.
    destruct (mlflow_set_experiment Mltrack._EXP e1) as [[[] | y] e2];
      [discriminate |].
    injection Hsetup as _ <-. split; reflexivity.
  - injection Hsetup as _ <-. split; reflexivity.
Qed.

(** X5.  End to end: events logged into an empty queue that has room for them
    reach the tracker one run each, in the order of the calls, and the
    worker is then waiting for more. *)
Theorem logged_events_are_forwarded_in_call_order (evs : list LogEvent)
    (fuel : nat) (w : World) :
  Py.truthy Mltrack._MLFLOW_URI = true ->
  _q w = [] ->
  unfinished_tasks w = 0 ->
  Z.of_nat (length evs) <= 10000 ->
  Mltrack.worker_loop (length evs + S fuel) (log_all evs w).2 =
    (Mltrack.Waiting, set_env (foldl deliver (env w) evs) w).
Proof.
  intros Hon Hq Hu Hlen. rewrite (log_all_spec evs w Hon). cbn [snd].
  assert (Hroom : take (room w) evs = evs).
  { apply take_ge. unfold room, Mltrack.maxsize, Mltrack.qsize. rewrite Hq.
    cbn [length]. lia. }
  rewrite Hroom, Hq, Hu. cbn [app].
  rewrite (worker_loop_prefix evs [] (S fuel)).
  - cbn [Mltrack.worker_loop _q set_q]. f_equal.
    destruct w; cbn in *. subst. unfold set_q, set_env. cbn. f_equal. lia.
  - cbn [_q set_q]. now rewrite app_nil_r.
  - unfold Mltrack.qsize. cbn [_q set_q unfinished_tasks].
    rewrite length_fmap. lia.
Qed.

End QueueFacts.

(** X6.  [start] spawns one worker the first time and none afterwards. *)
Theorem start_spawns_one_worker (n : nat) :
  Nat.iter (S n) Starter.start Starter.initial = Starter.mkState true 1.
Proof.
  induction n as [| n IH]; [reflexivity |].
  change (Nat.iter (S (S n)) Starter.start Starter.initial)
    with (Starter.start (Nat.iter (S n) Starter.start Starter.initial)).
  now rewrite IH.
Qed.

Lemma log_async_keeps_queue_bounded_witness :
  let w := set_q [Some (Demo.event "first")] 1 (Demo.world0 Demo.sc_up 0) in
  let w' := (Mltrack.log_async (H := Demo.externals Demo.sc_up) "inference" ∅ None w).2 in
  Mltrack.qsize w' <= 10000
  /\ Mltrack.qsize w' <= unfinished_tasks w'
  /\ Mltrack.qsize w <= Mltrack.qsize w' <= Mltrack.qsize w + 1.
Proof.
  intros w.
  apply (@log_async_keeps_queue_bounded (Demo.externals Demo.sc_up));
    vm_compute; discriminate.
Defined.

(** One free slot, two events: the first is queued, the second dropped. *)
Lemma log_all_drops_newest_witness :
  let w := set_q (replicate (Z.to_nat 9999) None) 9999 (Demo.world0 Demo.sc_up 0) in
  let evs := [Demo.event "first"; Demo.event "second"] in
  (log_all (H := Demo.externals Demo.sc_up) evs w).1 = Ok tt
  /\ _q (log_all (H := Demo.externals Demo.sc_up) evs w).2
     = _q w ++ [Some (Demo.event "first")].
Proof.
  intros w evs.
  assert (Hon : Py.truthy (@Mltrack._MLFLOW_URI (Demo.externals Demo.sc_up)) = true)
    by (vm_compute; reflexivity).
  destruct (@log_all_drops_newest (Demo.externals Demo.sc_up) evs w Hon) as [Hok Hq].
  split; [exact Hok |]. rewrite Hq. f_equal.
Defined.

Lemma worker_stops_at_none_witness :
  let w := set_q [Some (Demo.event "first"); None; Some (Demo.event "second")] 3
             (Demo.world0 Demo.sc_down 0) in
  Mltrack.worker_loop (H := Demo.externals Demo.sc_down) 5 w
    = (Mltrack.Stopped,
       set_q [Some (Demo.event "second")] 2
         (set_env (Demo.env_of Demo.sc_down 0 0 ["start_run first"]%string) w)).
Proof.
  intros w.
  refine (@worker_stops_at_none (Demo.externals Demo.sc_down)
            [Demo.event "first"] [Some (Demo.event "second")] 3%nat w eq_refl _).
  vm_compute. discriminate.
Defined.

(** The tracking server is unreachable when the worker starts. *)
Lemma worker_setup_failure_is_fatal_witness :
  let w := set_q [Some (Demo.event "first")] 1 (Demo.world0 Demo.sc_down 0) in
  Mltrack._worker (H := Demo.externals Demo.sc_down) 5 w
    = (Mltrack.Crashed (Exception "connection refused"),
       set_env (Demo.env_of Demo.sc_down 0 0 ["set_tracking_uri"]%string) w).
Proof.
  intros w.
  assert (Hon : Py.truthy (@Mltrack._MLFLOW_URI (Demo.externals Demo.sc_down)) = true)
    by (vm_compute; reflexivity).
  refine (proj1 (@worker_setup_failure_is_fatal (Demo.externals Demo.sc_down) 5%nat w
                   _ _ Hon _)).
  vm_compute. reflexivity.
Defined.

Lemma logged_events_are_forwarded_in_call_order_witness :
  let w := Demo.world0 Demo.sc_up 0 in
  let evs := [Demo.event "first"; Demo.event "second"] in
  Mltrack.worker_loop (H := Demo.externals Demo.sc_up) 3
      (log_all (H := Demo.externals Demo.sc_up) evs w).2
    = (Mltrack.Waiting,
       set_env
         (Demo.env_of Demo.sc_up 0 0
            ["start_run first"; "log_metric latency_ms"; "end_run FINISHED";
             "start_run second"; "log_metric latency_ms"; "end_run FINISHED"]%string)
         w).
Proof.
  intros w evs.
  assert (Hon : Py.truthy (@Mltrack._MLFLOW_URI (Demo.externals Demo.sc_up)) = true)
    by (vm_compute; reflexivity).
  assert (Hlen : Z.of_nat (length evs) <= 10000) by (vm_compute; discriminate).
  etransitivity;
    [exact (@logged_events_are_forwarded_in_call_order (Demo.externals Demo.sc_up)
              evs 0%nat w Hon eq_refl eq_refl Hlen) |].
  vm_compute. reflexivity.
Defined.

(** ** Box mapping *)

Section MappingFacts.
Context `{Externals}.

Lemma class_name_total (c_id : Z) : exists name, Infer.class_name c_id = Ok name.
Proof.
  destruct (Z_lt_le_dec c_id 0) as [Hneg | Hnn].
  - exists (Py.str c_id). apply class_name_outside_table. lia.
  - destruct (Z_lt_le_dec c_id (Z.of_nat (length Config.CLASS_NAMES))) as [Hlt | Hge].
    + destruct (class_name_in_table c_id) as (name & Hname & _); [lia | eauto].
    + exists (Py.str c_id). apply class_name_outside_table. lia.
Qed.

Lemma map_rows_length (rows : list ((Z * Z * Z * Z) * Z * Q)) :
  exists bs, Infer.map_rows rows = Ok bs /\ length bs = length rows.
Proof.
  induction rows as [| [[[[[a b] c] d] c_id] p] rows (bs & IH & Hlen)].
  - exists []. split; reflexivity.
  - destruct (class_name_total c_id) as (name & Hname).
    exists (mkBox name (Py.round p 4) a b c d :: bs).
    cbn [Infer.map_rows Infer.to_box]. rewrite Hname, IH.
    split; [reflexivity | cbn; now rewrite Hlen].
Qed.

(** X7.  Only the first element of the detector's result list is read; it
    yields as many boxes as its shortest tensor has rows, and none when the
    list is empty or the boxes (or their coordinates) are missing. *)
Theorem boxes_follow_shortest_tensor (results : list Results) :
  exists bs,
    Infer.map_rows (Infer.detector_rows results) = Ok bs
    /\ length bs =
       match results with
       | [] => 0%nat
       | r :: _ =>
           match boxes r with
           | Some bx =>
               match xyxy bx with
               | Some xy =>
                   (length xy `min`
                      (length (boxes_cls bx) `min` length (boxes_conf bx)))%nat
               | None => 0%nat
               end
           | None => 0%nat
           end
       end.
Proof.
  destruct (map_rows_length (Infer.detector_rows results)) as (bs & Hok & Hlen).
  exists bs. split; [exact Hok |]. rewrite Hlen.
  destruct results as [| [[[[xy |] cs ps] |]] rest]; cbn; try reflexivity.
  rewrite zip3_length, !length_fmap. reflexivity.
Qed.

Lemma round_half_even_between (a b : Z) (y : Q) :
  (inject_Z a <= y)%Q -> (y <= inject_Z b)%Q ->
  a <= Py.round_half_even y <= b.
Proof.
  intros Hlo Hhi.
  pose proof (Qfloor_le y) as Hfl. pose proof (Qlt_floor y) as Hfh.
  assert (Ha : a <= Qfloor y).
  { rewrite <- (Qfloor_Z a). now apply Qfloor_resp_le. }
  assert (Hb : Qfloor y <= b).
  { rewrite <- (Qfloor_Z b). now apply Qfloor_resp_le. }
  assert (Hup : (1 # 2 <= y - inject_Z (Qfloor y))%Q -> Qfloor y + 1 <= b).
  { intros Hr. assert (Hlt : (inject_Z (Qfloor y) < inject_Z b)%Q) by lra.
    rewrite <- Zlt_Qlt in Hlt. lia. }
  unfold Py.round_half_even.
  destruct (y - inject_Z (Qfloor y) ?= 1 # 2)%Q eqn:Hcmp.
  - apply Qeq_alt in Hcmp. destruct (Z.even (Qfloor y)); [lia |].
    split; [lia | apply Hup; lra].
  - lia.
  - apply Qgt_alt in Hcmp. split; [lia | apply Hup; lra].
Qed.

Lemma round4_error (x : Q) : (Qabs (Py.round x 4 - x) <= 1 # 20000)%Q.
Proof.
  unfold Py.round. change (inject_Z (10 ^ Z.of_nat 4)) with (10000 # 1)%Q.
  pose proof (round_half_even_error (x * (10000 # 1))) as Herr.
  apply Qabs_Qle_condition in Herr. apply Qabs_Qle_condition.
  generalize dependent (inject_Z (Py.round_half_even (x * (10000 # 1)))).
  intros r Herr. unfold Qdiv. change (/ (10000 # 1))%Q with (1 # 10000)%Q.
  split; lra.
Qed.

(** X8.  A detector confidence between 0 and 1 is still between 0 and 1 after
    the rounding to four decimals, and has moved by at most 0.00005. *)
Theorem rounded_confidence_stays_in_unit_interval
    (row : (Z * Z * Z * Z) * Z * Q) (b : Box) :
  Infer.to_box row = Ok b ->
  (0 <= row.2 <= 1)%Q ->
  (0 <= conf b <= 1)%Q /\ (Qabs (conf b - row.2) <= 1 # 20000)%Q.
Proof.
  destruct row as [[[[[a b'] c] d] c_id] p]. cbn [Infer.to_box snd].
  destruct (Infer.class_name c_id) as [name | x]; [| discriminate].
  intros [= <-] [Hlo Hhi]. cbn [conf]. split; [| apply round4_error].
  unfold Py.round. change (inject_Z (10 ^ Z.of_nat 4)) with (10000 # 1)%Q.
  destruct (round_half_even_between 0 10000 (p * (10000 # 1))) as [H0 H1].
  - change (inject_Z 0) with 0%Q. lra.
  - change (inject_Z 10000) with (10000 # 1)%Q. lra.
  - rewrite Zle_Qle in H0, H1.
    change (inject_Z 0) with 0%Q in H0.
    change (inject_Z 10000) with (10000 # 1)%Q in H1.
    generalize dependent (inject_Z (Py.round_half_even (p * (10000 # 1)))).
    intros r H0 H1. unfold Qdiv. change (/ (10000 # 1))%Q with (1 # 10000)%Q.
    split; lra.
Qed.

Lemma str_round_trip (z : Z) : int_parse (Py.str z) = Some z.
Proof.
  unfold int_parse, Py.str. rewrite NilZero.isi.
  - cbn. now rewrite DecimalZ.of_to.
  - destruct z; cbn; try discriminate.
    intros [= Hp]. now apply Unsigned.to_uint_nonnil in Hp.
  - destruct z; cbn; try discriminate.
    intros [= Hp]. now apply Unsigned.to_uint_nonnil in Hp.
Qed.

Lemma configured_names_are_not_numerals :
  Forall (fun name => int_parse name = None) Config.CLASS_NAMES.
Proof. repeat constructor. Qed.

Lemma configured_names_are_distinct : NoDup Config.CLASS_NAMES.
Proof. apply (bool_decide_unpack _). vm_compute. exact I. Qed.

(** X9.  Two different class indices never get the same name: the configured
    names are distinct, the fall-back numerals are distinct, and no
    configured name is a numeral.  Counting per name is counting per
    index. *)
Theorem class_name_is_injective (c1 c2 : Z) (name : string) :
  Infer.class_name c1 = Ok name ->
  Infer.class_name c2 = Ok name ->
  c1 = c2.
Proof.
  assert (Hcase : forall c, Infer.class_name c = Ok name ->
            (0 <= c < Z.of_nat (length Config.CLASS_NAMES)
             /\ Config.CLASS_NAMES !! Z.to_nat c = Some name)
            \/ name = Py.str c).
  { intros c Hc.
    destruct (Z_lt_le_dec c 0) as [Hneg | Hnn].
    - right. rewrite class_name_outside_table in Hc by lia. congruence.
    - destruct (Z_lt_le_dec c (Z.of_nat (length Config.CLASS_NAMES))) as [Hlt | Hge].
      + left. split; [lia |].
        destruct (class_name_in_table c) as (n & Hn & Hlook); [lia |]. congruence.
      + right. rewrite class_name_outside_table in Hc by lia. congruence. }
  assert (Hmix : forall c, Config.CLASS_NAMES !! Z.to_nat c = Some name ->
            name <> Py.str c2 /\ name <> Py.str c1).
  { intros c Hlook.
    pose proof configured_names_are_not_numerals as Hnum.
    rewrite Forall_forall in Hnum.
    pose proof (Hnum name (list_elem_of_lookup_2 _ _ _ Hlook)) as Hnone.
    split; intros ->; rewrite str_round_trip in Hnone; discriminate. }
  intros H1 H2.
  destruct (Hcase c1 H1) as [[Hr1 Hl1] | ->], (Hcase c2 H2) as [[Hr2 Hl2] | E2].
  - assert (Z.to_nat c1 = Z.to_nat c2)
      by exact (NoDup_lookup _ _ _ _ configured_names_are_distinct Hl1 Hl2).
    lia.
  - exfalso. exact (proj1 (Hmix c1 Hl1) E2).
  - exfalso. exact (proj2 (Hmix c2 Hl2) eq_refl).
  - apply (f_equal int_parse) in E2. rewrite !str_round_trip in E2. congruence.
Qed.

End MappingFacts.

(** ** Orchestration *)

Section OrchestrationFacts.
Context `{Externals}.

Lemma predict_file_ok_steps (file_bytes : bytes) (conf : Q) (w w' : World)
    (bs : list Box) (latency : Q) :
  Infer.predict_file file_bytes conf w = (Ok (bs, latency), w') ->
  exists (img resized : Ndarray) (h : Handle) (results : list Results)
         (e0 e2 e3 : Env) (w1 : World),
    image_open file_bytes (env w) = (Ok img, e0)
    /\ Infer.get_model (set_env e0 w) = (Ok (Some h), w1)
    /\ cv2_resize img Config.INPUT_SIZE (env w1) = (Ok resized, e2)
    /\ model_predict h resized conf e2 = (Ok results, e3)
    /\ Infer.map_rows (Infer.detector_rows results) = Ok bs
    /\ w' = set_env (interp e3) w1
    /\ latency = ((time_time (interp e3) - time_time (env w1)) * 1000)%Q.
Proof.
  intros Hrun.
  unfold Infer.predict_file, Infer._read_image_bytes in Hrun.
  unfold bind at 1 in Hrun. unfold extern at 1 in Hrun.
  destruct (image_open file_bytes (env w)) as [[img | x] e0] eqn:Hdec;
    [| discriminate].
  unfold Infer.predict_ndarray in Hrun. unfold bind at 1 in Hrun.
  destruct (Infer.get_model (set_env e0 w)) as [[v | x] w1] eqn:Hgm;
    [| discriminate].
  destruct (get_model_returns_handle _ _ _ Hgm) as (h & -> & _).
  unfold bind, observe, Infer._resize_if_needed, extern, Infer.map_results, ret in Hrun.
  destruct (cv2_resize img Config.INPUT_SIZE (env w1))
    as [[resized | x] e2] eqn:Hres; [| discriminate].
  cbn [env set_env] in Hrun.
  destruct (model_predict h resized conf e2)
    as [[results | x] e3] eqn:Hdet; [| discriminate].
  cbn [env set_env] in Hrun.
  destruct (Infer.map_rows (Infer.detector_rows results)) as [bs' | x] eqn:Hmap;
    [| discriminate].
  injection Hrun as <- <- <-.
  exists img, resized, h, results, e0, e2, e3, w1.
  repeat split; assumption.
Qed.

(** X10.  While [time.time()] does not go back during resize, detection and box
    mapping, the reported latency is not negative. *)
Theorem latency_is_not_negative (file_bytes : bytes) (conf : Q) (w w' : World)
    (bs : list Box) (latency : Q) :
  clock_monotone ->
  Infer.predict_file file_bytes conf w = (Ok (bs, latency), w') ->
  (0 <= latency)%Q.
Proof.
  intros (Hresize & Hdetect & Hmap) Hrun.
  destruct (predict_file_ok_steps _ _ _ _ _ _ Hrun)
    as (img & resized & h & results & e0 & e2 & e3 & w1
        & _ & _ & Hres & Hdet & _ & _ & ->).
  pose proof (Hresize img Config.INPUT_SIZE (env w1)) as H1. rewrite Hres in H1.
  pose proof (Hdetect h resized conf e2) as H2. rewrite Hdet in H2.
  pose proof (Hmap e3) as H3. cbn [snd] in H1, H2.
  generalize dependent (time_time (interp e3)).
  generalize dependent (time_time e3).
  generalize dependent (time_time e2).
  generalize dependent (time_time (env w1)).
  intros. lra.
Qed.

(** X11.  The boxes of a successful call come from the detector's answer to
    this very image: the bytes are decoded, the model is fetched, the
    decoded image is resized to [INPUT_SIZE], the detector is called on the
    resized image with the caller's threshold, and the boxes returned are
    those of the tensors of the first element of its answer.  Row [i] of
    the tensors gives the box at position [i], with the row's confidence
    rounded to four digits, the row's corners truncated towards zero and
    the class name of the row's class index; there are as many boxes as
    the shortest tensor has rows, and none when the answer is empty or has
    no boxes or no corners.  The model the detector was called on is the
    one left in the cache. *)
Theorem predict_file_returns_mapped_rows (file_bytes : bytes) (conf : Q)
    (w w' : World) (bs : list Box) (latency : Q) :
  Infer.predict_file file_bytes conf w = (Ok (bs, latency), w') ->
  exists (img resized : Ndarray) (h : Handle) (results : list Results)
         (e0 e2 e3 : Env) (w1 : World),
    image_open file_bytes (env w) = (Ok img, e0)
    /\ Infer.get_model (set_env e0 w) = (Ok (Some h), w1)
    /\ cv2_resize img Config.INPUT_SIZE (env w1) = (Ok resized, e2)
    /\ model_predict h resized conf e2 = (Ok results, e3)
    /\ _model w' = Some h
    /\ boxes_of_tensors results bs.
Proof.
  intros Hrun.
  destruct (predict_file_ok_steps _ _ _ _ _ _ Hrun)
    as (img & resized & h & results & e0 & e2 & e3 & w1
        & Hdec & Hgm & Hres & Hdet & Hmap & -> & _).
  destruct (get_model_returns_handle _ _ _ Hgm) as (h' & [= <-] & Hm).
  exists img, resized, h, results, e0, e2, e3, w1.
  repeat (split; [assumption |]).
  now apply detector_rows_boxes.
Qed.

Lemma predict_file_decode_error (file_bytes : bytes) (conf : Q)
    (w : World) (x : exn) (e1 : Env) :
  image_open file_bytes (env w) = (Raise x, e1) ->
  Infer.predict_file file_bytes conf w = (Raise x, set_env e1 w).
Proof.
  intros Hdec. unfold Infer.predict_file, Infer._read_image_bytes, bind, extern.
  now rewrite Hdec.
Qed.

(** X12.  A failed model load fails the prediction with the constructor's
    exception, before any resize or detection, and leaves the cache
    unset. *)
Theorem failed_load_fails_the_prediction (file_bytes : bytes) (conf : Q)
    (w : World) (img : Ndarray) (x : exn) (e0 e1 : Env) :
  _model w = None ->
  image_open file_bytes (env w) = (Ok img, e0) ->
  YOLO Config.WEIGHTS_PATH e0 = (Raise x, e1) ->
  Infer.predict_file file_bytes conf w = (Raise x, set_env e1 w).
Proof.
  intros Hm Hdec Hload.
  unfold Infer.predict_file, Infer._read_image_bytes. unfold bind at 1.
  unfold extern at 1. rewrite Hdec.
  unfold Infer.predict_ndarray. unfold bind at 1.
  rewrite (get_model_raises (set_env e0 w) x e1 Hm Hload). now destruct w.
Qed.

Lemma predict_file_keeps_model (file_bytes : bytes) (conf : Q) (w : World)
    (h : Handle) :
  _model w = Some h -> same_model w (Infer.predict_file file_bytes conf w).2.
Proof.
  intros Hm.
  unfold Infer.predict_file, Infer._read_image_bytes.
  unfold bind at 1. unfold extern at 1.
  destruct (image_open file_bytes (env w)) as [[img | x] e0];
    [| now split].
  unfold Infer.predict_ndarray. unfold bind at 1.
  rewrite (get_model_cached (set_env e0 w) h Hm).
  unfold bind, observe, Infer._resize_if_needed, extern, Infer.map_results, ret, raise.
  cbn [env set_env].
  destruct (cv2_resize img Config.INPUT_SIZE e0) as [[resized | x] e2];
    [| now split].
  cbn [env set_env].
  destruct (model_predict h resized conf e2) as [[results | x] e3];
    [| now split].
  cbn [env set_env].
  destruct (Infer.map_rows (Infer.detector_rows results)); now split.
Qed.

End OrchestrationFacts.

(** ** Handlers *)

Section EndpointFacts.
Context `{Externals}.

(** X13.  [/warmup] never raises.  When it reports success the model is cached
    and every further warm-up answers the same without touching anything;
    when it reports failure nothing was cached and nothing was built, so
    the next call tries again. *)
Theorem warmup_reports_and_caches (w : World) :
  exists r w',
    Endpoints.warmup w = (Ok r, w')
    /\ (Endpoints.ok r = true ->
        r = Endpoints.mkWarmup true "Model loaded"
        /\ (exists h, _model w' = Some h)
        /\ yolo_objects w' <= S (yolo_objects w)
        /\ Endpoints.warmup w' = (Ok r, w'))%nat
    /\ (Endpoints.ok r = false ->
        _model w = None /\ _model w' = None
        /\ yolo_objects w' = yolo_objects w).
Proof.
  unfold Endpoints.warmup, try_except. unfold bind at 1.
  destruct (Infer.get_model w) as [[v | x] w1] eqn:Hgm.
  - eexists _, w1. split; [reflexivity |]. cbn [Endpoints.ok]. split; [| discriminate].
    intros _. destruct (get_model_returns_handle _ _ _ Hgm) as (h & -> & Hm).
    split; [reflexivity |]. split; [eauto |]. split.
    + destruct (_model w) as [h0 |] eqn:Hm0.
      * rewrite (get_model_cached w h0 Hm0) in Hgm. injection Hgm as _ <-. lia.
      * destruct (YOLO Config.WEIGHTS_PATH (env w)) as [[[] | x] e1] eqn:Hload.
        -- rewrite (get_model_loads w e1 Hm0 Hload) in Hgm.
           injection Hgm as _ <-. cbn. lia.
        -- rewrite (get_model_raises w x e1 Hm0 Hload) in Hgm. discriminate.
    + unfold bind. now rewrite (get_model_cached w1 h Hm).
  - eexists _, w1. split; [reflexivity |]. cbn [Endpoints.ok]. split; [discriminate |].
    intros _. destruct (_model w) as [h0 |] eqn:Hm0.
    + rewrite (get_model_cached w h0 Hm0) in Hgm. discriminate.
    + destruct (YOLO Config.WEIGHTS_PATH (env w)) as [[[] | y] e1] eqn:Hload.
      * rewrite (get_model_loads w e1 Hm0 Hload) in Hgm. discriminate.
      * rewrite (get_model_raises w y e1 Hm0 Hload) in Hgm.
        injection Hgm as _ <-. now repeat split.
Qed.

Lemma same_model_trans (w1 w2 w3 : World) :
  same_model w1 w2 -> same_model w2 w3 -> same_model w1 w3.
Proof. unfold same_model. intros [-> ->] [-> ->]. now split. Qed.

Lemma batch_loop_keeps_model (files : list UploadFile) (conf : Q)
    (acc : Service.BatchAcc) (w : World) (h : Handle) :
  _model w = Some h -> same_model w (Service.batch_loop files conf acc w).2.
Proof.
  revert acc w. induction files as [| f files IH]; intros acc w Hm.
  - now split.
  - cbn [Service.batch_loop]. unfold bind at 1. unfold Service.read, ret.
    unfold bind at 1.
    pose proof (predict_file_keeps_model (content f) conf w h Hm) as Hp.
    destruct (Infer.predict_file (content f) conf w) as [[[bs lat] | x] w1];
      cbn [snd] in Hp; [| exact Hp].
    eapply same_model_trans; [exact Hp |]. apply IH.
    destruct Hp as [Hp _]. now rewrite Hp.
Qed.

(** X14.  Once a model is cached no endpoint replaces or drops it, and none
    builds another one. *)
Theorem endpoints_keep_the_cached_model (w : World) (h : Handle) :
  _model w = Some h ->
  (forall f conf, same_model w (Service.predict f conf w).2)
  /\ (forall files conf, same_model w (Service.predict_batch files conf w).2)
  /\ same_model w (Endpoints.warmup w).2.
Proof.
  intros Hm. split; [| split].
  - intros f conf. unfold Service.predict.
    destruct (Service.bad_content_type f); [now split |].
    unfold try_except. unfold bind at 1. unfold Service.read, ret.
    unfold bind at 1.
    pose proof (predict_file_keeps_model (content f) conf w h Hm) as Hp.
    destruct (Infer.predict_file (content f) conf w) as [[[bs lat] | x] w1];
      cbn [snd] in Hp; [| exact Hp].
    unfold bind at 1. unfold Service.csv_logging. unfold bind at 1.
    unfold extern at 1.
    destruct (open_append (Service.getenv "PRED_LOG" "artifacts/predict_log.csv") (env w1))
      as [[[] | x] e2]; [| exact Hp].
    rewrite writerows_appends. unfold bind at 1.
    match goal with
    | |- context [Mltrack.log_async ?name ?ms ?ps ?w2] =>
        destruct (log_async_total name ms ps w2) as (q & u & ->)
    end.
    exact Hp.
  - intros files conf. unfold Service.predict_batch.
    unfold bind at 1, observe at 1. unfold bind at 1.
    pose proof (batch_loop_keeps_model files conf ([], ∅, 0) w h Hm) as Hloop.
    destruct (Service.batch_loop files conf ([], ∅, 0) w)
      as [[[[rs counts] total] | x] w1]; cbn [snd] in Hloop; [| exact Hloop].
    unfold bind at 1, observe at 1. unfold bind at 1.
    match goal with
    | |- context [Mltrack.log_async ?name ?ms ?ps w1] =>
        destruct (log_async_total name ms ps w1) as (q & u & ->)
    end.
    exact Hloop.
  - unfold Endpoints.warmup, try_except, bind.
    rewrite (get_model_cached w h Hm). now split.
Qed.

(** X15.  [/predict] raises nothing but its two HTTP errors: 400 for a wrong
    content type, before anything is done, and 500 with a fixed text for
    every failure inside the handler. *)
Theorem predict_raises_only_400_or_500 (f : UploadFile) (conf : Q) (w w' : World)
    (x : exn) :
  Service.predict f conf w = (Raise x, w') ->
  (Service.bad_content_type f = true
   /\ x = HTTPException 400 "Please upload an image file." /\ w' = w)
  \/ (Service.bad_content_type f = false
      /\ x = HTTPException 500 "Prediction failed").
Proof.
  unfold Service.predict.
  destruct (Service.bad_content_type f).
  - intros [= <- <-]. left. now repeat split.
  - unfold try_except.
    match goal with
    | |- context [match ?m with _ => _ end] => destruct m as [[resp | y] w1]
    end; [discriminate |].
    intros [= <- <-]. right. now split.
Qed.

(** X16.  An upload of an accepted type that cannot be decoded is answered with
    the 500 error: the decoder's exception is replaced by the fixed text,
    no model is loaded, no audit line written and nothing queued. *)
Theorem undecodable_upload_is_a_500 (f : UploadFile) (conf : Q) (w : World)
    (x : exn) (e1 : Env) :
  Service.bad_content_type f = false ->
  image_open (content f) (env w) = (Raise x, e1) ->
  Service.predict f conf w
    = (Raise (HTTPException 500 "Prediction failed"), set_env e1 w).
Proof.
  intros Hct Hdec. unfold Service.predict. rewrite Hct.
  unfold try_except. unfold bind at 1. unfold Service.read, ret.
  unfold bind at 1.
  now rewrite (predict_file_decode_error (content f) conf w x e1 Hdec).
Qed.

(** X17.  What [/predict] answers is what [predict_file] returned for the
    uploaded bytes: the same boxes in the same order, the latency rounded
    to three decimals, the file name and the threshold of the request. *)
Theorem predict_response_echoes_predict_file (f : UploadFile) (threshold : Q)
    (w w' : World) (resp : Service.PredictResponse) :
  Service.predict f threshold w = (Ok resp, w') ->
  exists bs lat w1,
    Infer.predict_file (content f) threshold w = (Ok (bs, lat), w1)
    /\ Service.file resp = filename f
    /\ Service.conf_threshold resp = threshold
    /\ Service.resp_boxes resp = bs
    /\ Service.latency_ms resp = Py.round lat 3.
Proof.
  intros Hrun.
  destruct (predict_ok_inv _ _ _ _ _ Hrun) as (_ & bs & lat & w1 & e2 & Hp & _ & -> & _).
  exists bs, lat, w1. now repeat split.
Qed.

Lemma batch_loop_raise_inv (files : list UploadFile) (conf : Q)
    (acc : Service.BatchAcc) (w w' : World) (x : exn) :
  Service.batch_loop files conf acc w = (Raise x, w') ->
  exists f w1, f ∈ files /\ Infer.predict_file (content f) conf w1 = (Raise x, w').
Proof.
  revert acc w. induction files as [| f files IH]; intros acc w Hrun.
  - discriminate.
  - cbn [Service.batch_loop] in Hrun. unfold bind at 1 in Hrun.
    unfold Service.read, ret in Hrun. unfold bind at 1 in Hrun.
    destruct (Infer.predict_file (content f) conf w) as [[[bs lat] | y] w1] eqn:Hp.
    + apply IH in Hrun as (f' & w2 & Hin & Hf'). exists f', w2.
      split; [now apply list_elem_of_further | exact Hf'].
    + injection Hrun as <- <-. exists f, w. split; [apply list_elem_of_here | exact Hp].
Qed.

(** X19.  [/predict_batch] catches nothing: when it raises, the exception is the
    one [predict_file] raised for one of the images, passed on unchanged;
    the images after it are not processed, no result is returned for the
    ones before it, and neither the queue nor the audit file is written. *)
Theorem failing_image_aborts_the_batch (files : list UploadFile) (conf : Q)
    (w w' : World) (x : exn) :
  Service.predict_batch files conf w = (Raise x, w') ->
  sinks_untouched w w'
  /\ exists f w1, f ∈ files /\ Infer.predict_file (content f) conf w1 = (Raise x, w').
Proof.
  intros Hrun. unfold Service.predict_batch in Hrun.
  unfold bind at 1, observe at 1 in Hrun. unfold bind at 1 in Hrun.
  pose proof (batch_loop_sinks files conf ([], ∅, 0) w) as Hs.
  destruct (Service.batch_loop files conf ([], ∅, 0) w)
    as [[[[rs counts] total] | y] w1] eqn:Hloop; cbn [snd] in Hs.
  - unfold bind at 1, observe at 1 in Hrun. unfold bind at 1 in Hrun.
    match type of Hrun with
    | context [Mltrack.log_async ?name ?ms ?ps w1] =>
        destruct (log_async_total name ms ps w1) as (q & u & Hlog);
        rewrite Hlog in Hrun
    end.
    discriminate.
  - injection Hrun as <- <-. split; [exact Hs |].
    exact (batch_loop_raise_inv _ _ _ _ _ _ Hloop).
Qed.

(** The first image failing is enough: nothing of the rest of the list is
    looked at. *)
Theorem first_failing_image_aborts_the_batch (f : UploadFile)
    (files : list UploadFile) (conf : Q) (w w1 : World) (x : exn) :
  Infer.predict_file (content f) conf w = (Raise x, w1) ->
  Service.predict_batch (f :: files) conf w = (Raise x, w1).
Proof.
  intros Hp. unfold Service.predict_batch. unfold bind at 1, observe at 1.
  unfold bind at 1. cbn [Service.batch_loop]. unfold bind at 1.
  unfold Service.read, ret. unfold bind at 1. now rewrite Hp.
Qed.

End EndpointFacts.

(** ** Counts and batch metrics *)

Section CountFacts.
Context `{Externals}.

Lemma count_cls_cons (c : string) (b : Box) (bs : list Box) :
  count_cls c (b :: bs) = (if decide (cls b = c) then 1 else 0) + count_cls c bs.
Proof.
  unfold count_cls. rewrite filter_cons.
  destruct (decide (cls b = c)); cbn [length]; lia.
Qed.

Lemma count_cls_nonneg (c : string) (bs : list Box) : 0 <= count_cls c bs.
Proof. unfold count_cls. lia. Qed.

Lemma count_cls_app (c : string) (bs1 bs2 : list Box) :
  count_cls c (bs1 ++ bs2) = count_cls c bs1 + count_cls c bs2.
Proof.
  unfold count_cls. rewrite filter_app, length_app. lia.
Qed.

Lemma count_fold (bs : list Box) (m : gmap string Z) (c : string) :
  foldl Service.count_box m bs !! c =
    if decide (count_cls c bs = 0) then m !! c
    else Some (default 0 (m !! c) + count_cls c bs).
Proof.
  revert m. induction bs as [| b bs IH]; intros m.
  - reflexivity.
  - cbn [foldl]. rewrite IH, count_cls_cons. unfold Service.count_box.
    pose proof (count_cls_nonneg c bs) as Hnn.
    destruct (decide (cls b = c)) as [-> | Hne].
    + rewrite lookup_insert_eq. cbn [default].
      destruct (decide (count_cls c bs = 0)) as [-> | Hk];
        destruct (decide (1 + _ = 0)); try lia; f_equal; unfold id; lia.
    + rewrite lookup_insert_ne by exact Hne.
      destruct (decide (count_cls c bs = 0)) as [Hk | Hk];
        destruct (decide (0 + _ = 0)); try lia; reflexivity.
Qed.

(** X20.  The per-class dictionary built by the handlers has exactly the classes
    that occur among the boxes, each with the number of its boxes. *)
Theorem class_counts_are_box_counts (bs : list Box) (c : string) :
  foldl Service.count_box ∅ bs !! c =
    if decide (count_cls c bs = 0) then None else Some (count_cls c bs).
Proof.
  rewrite count_fold, lookup_empty. cbn [default].
  destruct (decide (count_cls c bs = 0)); [reflexivity | f_equal; lia].
Qed.

Lemma accumulate_fold (bs : list Box) (counts : gmap string Z) (total : Z) :
  foldl Service.accumulate (counts, total) bs
    = (foldl Service.count_box counts bs, total + Z.of_nat (length bs)).
Proof.
  revert counts total. induction bs as [| b bs IH]; intros counts total.
  - cbn. f_equal. lia.
  - cbn [foldl length]. unfold Service.accumulate at 2. cbn [fst snd].
    rewrite IH. f_equal. lia.
Qed.

Lemma batch_loop_totals (files : list UploadFile) (conf : Q)
    (acc acc' : Service.BatchAcc) (w w' : World) :
  Service.batch_loop files conf acc w = (Ok acc', w') ->
  exists rs,
    acc'.1.1 = acc.1.1 ++ rs
    /\ acc'.1.2 = foldl Service.count_box acc.1.2 (all_boxes rs)
    /\ acc'.2 = acc.2 + Z.of_nat (length (all_boxes rs)).
Proof.
  revert acc w. induction files as [| f files IH]; intros acc w Hrun.
  - injection Hrun as <- <-. exists []. cbn. rewrite app_nil_r.
    repeat split. lia.
  - cbn [Service.batch_loop] in Hrun. unfold bind at 1 in Hrun.
    unfold Service.read, ret in Hrun. unfold bind at 1 in Hrun.
    destruct (Infer.predict_file (content f) conf w) as [[[bs lat] | x] w1];
      [| discriminate].
    apply IH in Hrun as (rs & Hres & Hcounts & Htotal).
    rewrite accumulate_fold in Hres, Hcounts, Htotal. cbn [fst snd] in *.
    exists (Service.mkBatchResult (filename f) bs lat :: rs).
    unfold all_boxes in *. cbn [fmap list_fmap mjoin list_join Service.result_boxes].
    split; [rewrite Hres, <- app_assoc; reflexivity |].
    split; [rewrite Hcounts, foldl_app; reflexivity |].
    rewrite Htotal, length_app, Nat2Z.inj_add. now rewrite Z.add_assoc.
Qed.

(** X21.  With the tracker configured and room in the queue, a batch call that
    returns has queued one event named [batch_inference] whose metrics
    agree with the response: batch size, the two latencies as returned,
    the total number of boxes over all results and the number of boxes of
    every class that occurs. *)
Theorem batch_event_agrees_with_response (files : list UploadFile) (conf : Q)
    (w w' : World) (resp : Service.BatchResponse) :
  Py.truthy Mltrack._MLFLOW_URI = true ->
  Mltrack.qsize w < 10000 ->
  Service.predict_batch files conf w = (Ok resp, w') ->
  let bs := all_boxes (Service.results resp) in
  exists ev,
    _q w' = _q w ++ [Some ev]
    /\ run_name ev = "batch_inference"%string
    /\ params ev = Service.log_params conf
    /\ metrics ev !! "batch_size"%string = Some (Py.float (Service.batch_size resp))
    /\ metrics ev !! "batch_latency_ms"%string = Some (Service.batch_latency_ms resp)
    /\ metrics ev !! "avg_latency_ms"%string = Some (Service.avg_latency_ms resp)
    /\ metrics ev !! "n_boxes_total"%string = Some (Py.float (Z.of_nat (length bs)))
    /\ (forall c, count_cls c bs <> 0 ->
          metrics ev !! class_key c = Some (Py.float (count_cls c bs))).
Proof.
  intros Hon Hroom Hrun bs.
  unfold Service.predict_batch in Hrun. unfold bind at 1, observe at 1 in Hrun.
  unfold bind at 1 in Hrun.
  pose proof (batch_loop_sinks files conf ([], ∅, 0) w) as (_ & Hq & _).
  destruct (Service.batch_loop files conf ([], ∅, 0) w)
    as [[[[rs counts] total] | x] w1] eqn:Hloop; [| discriminate].
  cbn [snd] in Hq.
  destruct (batch_loop_totals _ _ _ _ _ _ Hloop) as (rs' & Hrs & Hcounts & Htotal).
  cbn [fst snd app] in Hrs, Hcounts, Htotal. subst rs' counts total.
  unfold bind at 1, observe at 1 in Hrun. unfold bind at 1 in Hrun.
  rewrite log_async_enqueues in Hrun;
    [| exact Hon | unfold Mltrack.qsize in *; now rewrite Hq].
  unfold ret in Hrun. injection Hrun as <- <-.
  subst bs. cbn [Service.results Service.batch_size Service.batch_latency_ms
                 Service.avg_latency_ms _q set_q default].
  eexists. split; [rewrite Hq; reflexivity |].
  cbn [run_name params metrics]. split; [reflexivity |]. split; [reflexivity |].
  assert (Hplain : forall (key : string) (m : gmap string Q),
             (forall c, key <> class_key c) ->
             (Service.class_metrics (foldl Service.count_box ∅ (all_boxes rs)) ∪ m) !! key
             = m !! key).
  { intros key m Hkey. apply lookup_union_r. now apply class_metrics_other_key. }
  unfold Service.batch_metrics.
  split.
  { rewrite Hplain by (intros c; unfold class_key; cbn; discriminate).
    rewrite lookup_insert_ne by discriminate. apply lookup_insert_eq. }
  split.
  { rewrite Hplain by (intros c; unfold class_key; cbn; discriminate).
    rewrite !lookup_insert_ne by discriminate. apply lookup_insert_eq. }
  split.
  { rewrite Hplain by (intros c; unfold class_key; cbn; discriminate).
    rewrite !lookup_insert_ne by discriminate. apply lookup_insert_eq. }
  split.
  { rewrite Hplain by (intros c; unfold class_key; cbn; discriminate).
    rewrite Z.add_0_l. apply lookup_insert_eq. }
  intros c Hc. apply lookup_union_Some_l. apply class_metrics_lookup.
  rewrite count_fold, lookup_empty. cbn [default].
  destruct (decide (count_cls c (all_boxes rs) = 0)); [contradiction | f_equal; lia].
Qed.

Lemma round_proper (x y : Q) (n : nat) : x == y -> Py.round x n = Py.round y n.
Proof.
  intros Hxy. unfold Py.round. f_equal. f_equal. unfold Py.round_half_even.
  set (s := inject_Z (10 ^ Z.of_nat n)).
  assert (Hs : x * s == y * s) by now rewrite Hxy.
  rewrite (Qfloor_comp _ _ Hs).
  assert (Hc : (x * s - inject_Z (Qfloor (y * s)) ?= 1 # 2)%Q
               = (y * s - inject_Z (Qfloor (y * s)) ?= 1 # 2)%Q)
    by now rewrite Hs.
  now rewrite Hc.
Qed.

(** X22.  For an empty list the divisor of the average is 1, not 0: the call
    returns, with no result and the average equal to the batch latency;
    the model is not loaded and nothing is written to the audit file. *)
Theorem empty_batch_is_answered (conf : Q) (w : World) :
  exists resp w',
    Service.predict_batch [] conf w = (Ok resp, w')
    /\ Service.batch_size resp = 0
    /\ Service.results resp = []
    /\ Service.avg_latency_ms resp = Service.batch_latency_ms resp
    /\ same_model w w' /\ env w' = env w /\ pred_log w' = pred_log w.
Proof.
  unfold Service.predict_batch. unfold bind at 1, observe at 1.
  unfold bind at 1. cbn [Service.batch_loop ret].
  unfold bind at 1, observe at 1. unfold bind at 1.
  match goal with
  | |- context [Mltrack.log_async ?name ?ms ?ps w] =>
      destruct (log_async_total name ms ps w) as (q & u & ->)
  end.
  eexists _, _. split; [reflexivity |].
  cbn [Service.batch_size Service.results Service.avg_latency_ms
       Service.batch_latency_ms length].
  split; [reflexivity |]. split; [reflexivity |].
  split; [| now repeat split].
  apply round_proper. unfold Py.float. change (inject_Z (1 `max` Z.of_nat 0)) with 1%Q.
  field.
Qed.

End CountFacts.

(** ** The properties above on the concrete deployment *)

Lemma rounded_confidence_stays_in_unit_interval_witness :
  let row := ((10, 10, 100, 100), 6, (1 # 3)%Q) in
  exists b, Infer.to_box row = Ok b
            /\ (0 <= conf b <= 1)%Q /\ (Qabs (conf b - (1 # 3)) <= 1 # 20000)%Q.
Proof.
  intros row. eexists. split; [reflexivity |].
  apply (rounded_confidence_stays_in_unit_interval row); [reflexivity |].
  split; vm_compute; discriminate.
Defined.

Lemma class_name_is_injective_witness :
  Infer.class_name 17 = Ok "17"%string /\ Infer.class_name (10 + 7) = Ok "17"%string
  /\ 17 = 10 + 7.
Proof.
  split; [reflexivity |]. split; [reflexivity |].
  exact (class_name_is_injective 17 (10 + 7) "17" eq_refl eq_refl).
Defined.

Lemma latency_is_not_negative_witness :
  exists bs latency w',
    Infer.predict_file (H := Demo.externals Demo.sc_down) (content Demo.png) (1 # 4)
        (Demo.world0 Demo.sc_down 0) = (Ok (bs, latency), w')
    /\ (0 <= latency)%Q.
Proof.
  assert (Hmono : @clock_monotone (Demo.externals Demo.sc_down)).
  { unfold clock_monotone. cbn. repeat split; intros; lra. }
  destruct (Infer.predict_file (H := Demo.externals Demo.sc_down) (content Demo.png)
              (1 # 4) (Demo.world0 Demo.sc_down 0))
    as [[[bs latency] | x] w'] eqn:Hrun.
  - exists bs, latency, w'. split; [reflexivity |].
    exact (@latency_is_not_negative (Demo.externals Demo.sc_down) _ _ _ _ _ _ Hmono Hrun).
  - apply (f_equal (fun r => is_Ok r.1)) in Hrun. vm_compute in Hrun. discriminate Hrun.
Defined.

(** The second detection has corners 2.5, 7, 20, 30 and class index 17. *)
Lemma predict_file_returns_mapped_rows_witness :
  exists bs latency w',
    Infer.predict_file (H := Demo.externals Demo.sc_down) (content Demo.png) (1 # 4)
        (Demo.world0 Demo.sc_down 0) = (Ok (bs, latency), w')
    /\ length bs = 2%nat
    /\ exists b, bs !! 1%nat = Some b
                 /\ (x1 b, y1 b, x2 b, y2 b) = (2, 7, 20, 30)
                 /\ (conf b == 3333 # 10000)%Q
                 /\ cls b = "17"%string.
Proof.
  destruct (Infer.predict_file (H := Demo.externals Demo.sc_down) (content Demo.png)
              (1 # 4) (Demo.world0 Demo.sc_down 0))
    as [[[bs latency] | x] w'] eqn:Hrun.
  - exists bs, latency, w'. split; [reflexivity |].
    destruct (@predict_file_returns_mapped_rows (Demo.externals Demo.sc_down)
                _ _ _ _ _ _ Hrun)
      as (img & resized & h & results & e0 & e2 & e3 & w1 & _ & _ & _ & Hdet & _ & Hbs).
    injection Hdet as <- _.
    destruct Hbs as (Hlen & Hrows). split; [exact Hlen |].
    destruct (Hrows 1%nat (5 # 2, 7, 20, 30)%Q 17%Q (1 # 3)%Q eq_refl eq_refl eq_refl)
      as (b & Hb & Hconf & Hname & Hcoords).
    exists b. split; [exact Hb |]. split; [| split].
    + apply Hcoords. vm_compute. repeat split; first [discriminate | reflexivity].
    + rewrite Hconf. reflexivity.
    + apply Hname; [vm_compute; split; [discriminate | reflexivity] |].
      right. vm_compute. discriminate.
  - apply (f_equal (fun r => is_Ok r.1)) in Hrun. vm_compute in Hrun. discriminate Hrun.
Defined.

(** The weights are missing: the prediction fails with the constructor's
    exception. *)
Lemma failed_load_fails_the_prediction_witness :
  Infer.predict_file (H := Demo.externals Demo.sc_off) (content Demo.png) (1 # 4)
      (Demo.world0 Demo.sc_off 1)
    = (Raise (Exception "weights not found"),
       set_env (Demo.env_of Demo.sc_off (0 + (1 # 300)) 0 []) (Demo.world0 Demo.sc_off 1)).
Proof.
  apply (@failed_load_fails_the_prediction (Demo.externals Demo.sc_off) (content Demo.png)
           (1 # 4) (Demo.world0 Demo.sc_off 1) (content Demo.png)
           (Exception "weights not found")
           (Demo.env_of Demo.sc_off (0 + (1 # 300)) 1 []));
    reflexivity.
Defined.

Lemma endpoints_keep_the_cached_model_witness :
  let w := set_model (Some 0%nat) (set_yolo_objects 1 (Demo.world0 Demo.sc_up 0)) in
  same_model w (Service.predict (H := Demo.externals Demo.sc_up) Demo.png (1 # 4) w).2.
Proof.
  intros w.
  exact (proj1 (@endpoints_keep_the_cached_model (Demo.externals Demo.sc_up) w 0%nat eq_refl)
           Demo.png (1 # 4)).
Defined.

Lemma predict_raises_only_400_or_500_witness :
  let broken := mkUploadFile "broken.png" (Some "image/png"%string) [] in
  exists x w',
    Service.predict (H := Demo.externals Demo.sc_up) broken (1 # 4)
        (Demo.world0 Demo.sc_up 0) = (Raise x, w')
    /\ x = HTTPException 500 "Prediction failed".
Proof.
  intros broken.
  destruct (Service.predict (H := Demo.externals Demo.sc_up) broken (1 # 4)
              (Demo.world0 Demo.sc_up 0)) as [[resp | x] w'] eqn:Hrun.
  - apply (f_equal (fun r => is_Ok r.1)) in Hrun. vm_compute in Hrun. discriminate Hrun.
  - exists x, w'. split; [reflexivity |].
    destruct (@predict_raises_only_400_or_500 (Demo.externals Demo.sc_up) _ _ _ _ _ Hrun)
      as [(Hbad & _) | (_ & Hx)]; [discriminate Hbad | exact Hx].
Defined.

Lemma undecodable_upload_is_a_500_witness :
  let broken := mkUploadFile "broken.png" (Some "image/png"%string) [] in
  Service.predict (H := Demo.externals Demo.sc_up) broken (1 # 4) (Demo.world0 Demo.sc_up 0)
    = (Raise (HTTPException 500 "Prediction failed"), Demo.world0 Demo.sc_up 0).
Proof.
  intros broken.
  exact (@undecodable_upload_is_a_500 (Demo.externals Demo.sc_up) broken (1 # 4)
           (Demo.world0 Demo.sc_up 0) (Exception "cannot identify image file")
           (Demo.env_of Demo.sc_up 0 0 []) eq_refl eq_refl).
Defined.

Lemma predict_response_echoes_predict_file_witness :
  exists resp w',
    Service.predict (H := Demo.externals Demo.sc_up) Demo.png (1 # 4)
        (Demo.world0 Demo.sc_up 0) = (Ok resp, w')
    /\ Service.file resp = "00006.png"%string
    /\ Service.conf_threshold resp = (1 # 4)%Q.
Proof.
  destruct (Service.predict (H := Demo.externals Demo.sc_up) Demo.png (1 # 4)
              (Demo.world0 Demo.sc_up 0)) as [[resp | x] w'] eqn:Hrun.
  - exists resp, w'. split; [reflexivity |].
    destruct (@predict_response_echoes_predict_file (Demo.externals Demo.sc_up)
                _ _ _ _ _ Hrun) as (bs & lat & w1 & _ & Hfile & Hconf & _).
    split; assumption.
  - apply (f_equal (fun r => is_Ok r.1)) in Hrun. vm_compute in Hrun. discriminate Hrun.
Defined.


(** The second of three images cannot be decoded. *)
Lemma failing_image_aborts_the_batch_witness :
  let broken := mkUploadFile "broken.png" (Some "image/png"%string) [] in
  exists x w',
    Service.predict_batch (H := Demo.externals Demo.sc_up) [Demo.png; broken; Demo.png]
        (1 # 4) (Demo.world0 Demo.sc_up 0) = (Raise x, w')
    /\ _q w' = [] /\ pred_log w' = [].
Proof.
  intros broken.
  destruct (Service.predict_batch (H := Demo.externals Demo.sc_up)
              [Demo.png; broken; Demo.png] (1 # 4) (Demo.world0 Demo.sc_up 0))
    as [[resp | x] w'] eqn:Hrun.
  - apply (f_equal (fun r => is_Ok r.1)) in Hrun. vm_compute in Hrun. discriminate Hrun.
  - exists x, w'. split; [reflexivity |].
    destruct (@failing_image_aborts_the_batch (Demo.externals Demo.sc_up) _ _ _ _ _ Hrun)
      as ((Hlog & Hq & _) & _).
    split; assumption.
Defined.

Lemma batch_event_agrees_with_response_witness :
  exists resp w',
    Service.predict_batch (H := Demo.externals Demo.sc_up) [Demo.png; Demo.png] (1 # 4)
        (Demo.world0 Demo.sc_up 0) = (Ok resp, w')
    /\ exists ev,
         _q w' = [Some ev]
         /\ metrics ev !! "batch_size"%string = Some (Py.float (Service.batch_size resp)).
Proof.
  destruct (Service.predict_batch (H := Demo.externals Demo.sc_up) [Demo.png; Demo.png]
              (1 # 4) (Demo.world0 Demo.sc_up 0)) as [[resp | x] w'] eqn:Hrun.
  - exists resp, w'. split; [reflexivity |].
    assert (Hon : Py.truthy (@Mltrack._MLFLOW_URI (Demo.externals Demo.sc_up)) = true)
      by (vm_compute; reflexivity).
    assert (Hroom : Mltrack.qsize (Demo.world0 Demo.sc_up 0) < 10000)
      by (vm_compute; reflexivity).
    destruct (@batch_event_agrees_with_response (Demo.externals Demo.sc_up) _ _ _ _ _
                Hon Hroom Hrun) as (ev & Hq & _ & _ & Hsize & _).
    exists ev. split; assumption.
  - apply (f_equal (fun r => is_Ok r.1)) in Hrun. vm_compute in Hrun. discriminate Hrun.
Defined.
